(** * The product catalog service: the request handlers of server.js over a
      model of the SQLite table they read and write.

    Modelling conventions.
    - JavaScript strings are Rocq strings, read as ASCII text: a character
      above 127 has no case and is neither white space nor a digit.
    - [undefined] (an absent query parameter or body field) is [None].  A
      query parameter is a string; a repeated or bracketed parameter, which
      Express hands over as an array or an object, is outside the model.
    - A JavaScript number is [NaN], one of the two infinities, or an exact
      rational ([Fin q]); rounding to binary64 is not modelled.  The integers
      that [parseInt] produces are kept in [Z].
    - The SQLite store is a list of rows.  The statements that the list
      endpoint assembles as text reach the store as text, and the store
      reads them back with [parse_select] and [parse_count]; the fixed
      statements of the other endpoints are modelled by their effect. *)

From Stdlib Require Import Bool Arith ZArith QArith Qabs Qround Lia Lqa List.
From Stdlib Require Import Ascii String OrdersEx.
From Stdlib Require Import Sorting.Sorted Sorting.Permutation.
Import ListNotations.

Open Scope string_scope.
Open Scope Z_scope.

(** ** JavaScript primitives used by the handlers *)

Module JS.

(** JavaScript numbers. *)
Inductive number : Type :=
| NaN
| Inf (negative : bool)
| Fin (q : Q).

(** [!!v] for a value that is a string or [undefined]. *)
Definition truthy (v : option string) : bool :=
  match v with
  | None => false
  | Some s => negb (s =? "")%string
  end.

Definition upperChar (c : ascii) : ascii :=
  let n := nat_of_ascii c in
  if ((97 <=? n) && (n <=? 122))%nat then ascii_of_nat (n - 32) else c.

(** [String.prototype.toUpperCase]. *)
Fixpoint toUpperCase (s : string) : string :=
  match s with
  | EmptyString => EmptyString
  | String c r => String (upperChar c) (toUpperCase r)
  end.

Definition isWhiteSpace (c : ascii) : bool :=
  let n := nat_of_ascii c in
  ((n =? 9) || (n =? 10) || (n =? 11) || (n =? 12) || (n =? 13) || (n =? 32))%nat.

(** Leading white space is skipped by [parseInt] and [parseFloat]. *)
Fixpoint trimStart (s : string) : string :=
  match s with
  | EmptyString => EmptyString
  | String c r => if isWhiteSpace c then trimStart r else s
  end.

(** Value of a character as a digit in radix up to 36. *)
Definition digitValue (c : ascii) : option Z :=
  let n := nat_of_ascii c in
  if ((48 <=? n) && (n <=? 57))%nat then Some (Z.of_nat (n - 48))
  else if ((97 <=? n) && (n <=? 122))%nat then Some (Z.of_nat (n - 87))
  else if ((65 <=? n) && (n <=? 90))%nat then Some (Z.of_nat (n - 55))
  else None.

(** Reads the longest prefix of radix-[radix] digits; [None] when it is empty. *)
Fixpoint readDigits (radix : Z) (s : string) (acc : Z) (seen : bool) : option Z :=
  let stop := if seen then Some acc else None in
  match s with
  | EmptyString => stop
  | String c r =>
      match digitValue c with
      | Some d => if d <? radix then readDigits radix r (acc * radix + d) true else stop
      | None => stop
      end
  end.

Definition readSign (s : string) : Z * string :=
  match s with
  | String c r =>
      if (c =? "-")%char then (-1, r)
      else if (c =? "+")%char then (1, r)
      else (1, s)
  | EmptyString => (1, s)
  end.

(** [parseInt(s)] with no radix argument; [None] is NaN. *)
Definition parseInt (s : string) : option Z :=
  let (sign, s1) := readSign (trimStart s) in
  let (radix, s2) :=
    match s1 with
    | String z (String x r) =>
        if ((z =? "0") && ((x =? "x") || (x =? "X")))%char then (16, r) else (10, s1)
    | _ => (10, s1)
    end in
  option_map (Z.mul sign) (readDigits radix s2 0 false).

Definition isDigit (c : ascii) : bool :=
  let n := nat_of_ascii c in ((48 <=? n) && (n <=? 57))%nat.

(** Splits off the longest prefix of decimal digits. *)
Fixpoint spanDigits (s : string) : string * string :=
  match s with
  | EmptyString => (EmptyString, EmptyString)
  | String c r =>
      if isDigit c then let (d, rest) := spanDigits r in (String c d, rest)
      else (EmptyString, s)
  end.

Fixpoint digitsValue (s : string) (acc : Z) : Z :=
  match s with
  | EmptyString => acc
  | String c r => digitsValue r (acc * 10 + Z.of_nat (nat_of_ascii c - 48))
  end.

(** The exponent part [e[+-]ddd] of a decimal literal, 0 when there is none
    (an [e] that is not followed by digits does not belong to the literal). *)
Definition readExponent (s : string) : Z :=
  match s with
  | String c r =>
      if ((c =? "e") || (c =? "E"))%char then
        let (sign, r1) := readSign r in
        let (ds, _) := spanDigits r1 in
        if (ds =? "")%string then 0 else sign * digitsValue ds 0
      else 0
  | EmptyString => 0
  end.

(** [String.prototype.startsWith] *)
Fixpoint startsWith (p s : string) : bool :=
  match p, s with
  | EmptyString, _ => true
  | String a p', String b s' => (a =? b)%char && startsWith p' s'
  | String _ _, EmptyString => false
  end.

(** [parseFloat(s)]: the longest prefix that is a decimal literal. *)
Definition parseFloat (s : string) : number :=
  let (sign, s1) := readSign (trimStart s) in
  if startsWith "Infinity" s1 then Inf (sign <? 0)
  else
    let (ip, r1) := spanDigits s1 in
    let (fp, r2) :=
      match r1 with
      | String c r => if (c =? ".")%char then spanDigits r else (EmptyString, r1)
      | EmptyString => (EmptyString, r1)
      end in
    if ((ip =? "") && (fp =? ""))%string then NaN
    else
      let e := readExponent r2 - Z.of_nat (String.length fp) in
      Fin (Qred (inject_Z (sign * digitsValue (ip ++ fp) 0) * Qpower (10 # 1) e)).

(** [String.prototype.trim] as validator.js applies it: white space is
    removed at both ends. *)
Fixpoint trimEnd (s : string) : string :=
  match s with
  | EmptyString => EmptyString
  | String c r =>
      let r' := trimEnd r in
      if ((r' =? "")%string && isWhiteSpace c)%bool then EmptyString else String c r'
  end.

Definition trim (s : string) : string := trimEnd (trimStart s).

Definition digitChar (d : Z) : ascii := ascii_of_nat (48 + Z.to_nat d).

Fixpoint decimalDigits (fuel : nat) (n : Z) (acc : string) : string :=
  match fuel with
  | O => acc
  | S f =>
      let acc' := String (digitChar (n mod 10)) acc in
      if n <? 10 then acc' else decimalDigits f (n / 10) acc'
  end.

(** The decimal digits of a non-negative integer. *)
Definition decimal (n : Z) : string :=
  decimalDigits (S (Z.to_nat (Z.log2 n))) n EmptyString.

Fixpoint zeros (k : nat) : string :=
  match k with
  | O => EmptyString
  | S k' => String "0" (zeros k')
  end.

(** What [Number.prototype.toFixed] returns: fixed-point text, or, for a
    magnitude of 10^21 or more, the exponent notation of the number (which
    this model does not spell out). *)
Inductive numeral : Type :=
| Fixed (text : string)
| Exponent (x : Q).

(** [x.toFixed(f)] for a finite [x]: the integer [n] nearest to [x * 10^f]
    (the larger one on a tie), written with [f] digits after the point. *)
Definition toFixed (x : Q) (f : nat) : numeral :=
  let s := if Qle_bool 0 x then EmptyString else "-" in
  let ax := Qabs x in
  if Qle_bool (inject_Z (10 ^ 21)) ax then Exponent x
  else
    let n := Qfloor (ax * inject_Z (10 ^ Z.of_nat f) + (1 # 2)) in
    let m := decimal n in
    let m := match f with
             | O => m
             | _ =>
                 let k := String.length m in
                 let m := if (k <=? f)%nat then zeros (f + 1 - k) ++ m else m in
                 let k := String.length m in
                 substring 0 (k - f) m ++ "." ++ substring (k - f) f m
             end in
    Fixed (s ++ m).


End JS.

Import JS.

(** ** Data model: the [products] table (scripts/init-db.js) *)

Module Row.

(** One row of [products].  [description] is the only nullable column;
    [created_at] and [updated_at] are the store's clock readings. *)
Record t : Type := mk {
  id : string;
  category : string;
  name : string;
  description : option string;
  quantity : Z;
  unit_price : Q;
  code : string;
  created_at : Z;
  updated_at : Z
}.

End Row.

(** The query string of [GET /api/products] ([req.query]). *)
Module Query.

Record t : Type := mk {
  category : option string;
  search : option string;
  minPrice : option string;
  maxPrice : option string;
  sortBy : option string;
  order : option string;
  page : option string;
  limit : option string
}.



End Query.

(** ** The store: SQLite behind node-sqlite3 *)

Module Store.

Definition table : Type := list Row.t.

(** A JavaScript value placed in a parameter array. *)
Inductive jsvalue : Type :=
| JStr (s : string)
| JNum (n : number).

(** A bound SQL value. *)
Inductive value : Type :=
| VNull
| VNum (q : Q)
| VInf (negative : bool)
| VText (s : string).

(** node-sqlite3 binds strings as TEXT and numbers as numbers; SQLite turns a
    NaN into NULL. *)
Definition bind (v : jsvalue) : value :=
  match v with
  | JStr s => VText s
  | JNum NaN => VNull
  | JNum (Inf b) => VInf b
  | JNum (Fin q) => VNum q
  end.

Definition lowerChar (c : ascii) : ascii :=
  let n := nat_of_ascii c in
  if ((65 <=? n) && (n <=? 90))%nat then ascii_of_nat (n + 32) else c.

(** [text LIKE pattern]: [%] matches any run of characters, [_] any single
    one, letters match without regard to case. *)
Fixpoint like (pattern text : string) {struct pattern} : bool :=
  match pattern with
  | EmptyString => match text with EmptyString => true | _ => false end
  | String c p =>
      if (c =? "%")%char then
        (fix any (t : string) : bool :=
           like p t || match t with
                       | EmptyString => false
                       | String _ t' => any t'
                       end) text
      else
        match text with
        | EmptyString => false
        | String d t => ((c =? "_")%char || (lowerChar c =? lowerChar d)%char) && like p t
        end
  end.




(** A numeric parameter compared with [unit_price]. *)
Inductive bound : Type :=
| BNull
| BNum (q : Q)
| BInf (negative : bool).



(** The conjuncts that the list endpoint can append to [WHERE 1=1]. *)
Inductive clause : Type :=
| CategoryLike
| SearchLike
| PriceGe
| PriceLe.

Definition clause_sql (c : clause) : string :=
  match c with
  | CategoryLike => " AND category LIKE ?"
  | SearchLike => " AND (name LIKE ? OR description LIKE ? OR code LIKE ?)"
  | PriceGe => " AND unit_price >= ?"
  | PriceLe => " AND unit_price <= ?"
  end.


Inductive column : Type :=
| ColId | ColName | ColCategory | ColQuantity | ColUnitPrice | ColCode.

Inductive direction : Type := Asc | Desc.

Definition column_sql (c : column) : string :=
  match c with
  | ColId => "id"
  | ColName => "name"
  | ColCategory => "category"
  | ColQuantity => "quantity"
  | ColUnitPrice => "unit_price"
  | ColCode => "code"
  end.

Definition direction_sql (d : direction) : string :=
  match d with Asc => "ASC" | Desc => "DESC" end.

(** *** Reading a statement *)







(** *** Binding parameters

    A parameter that is missing is NULL.  A number given to LIKE or a text
    given to a price comparison is outside this model ([None]); the server
    passes neither. *)



Definition as_bound (v : value) : option bound :=
  match v with
  | VNull => Some BNull
  | VNum q => Some (BNum q)
  | VInf b => Some (BInf b)
  | VText _ => None
  end.



(** *** Evaluating *)




Definition row_leb (c : column) (a b : Row.t) : bool :=
  match c with
  | ColId => String.leb (Row.id a) (Row.id b)
  | ColName => String.leb (Row.name a) (Row.name b)
  | ColCategory => String.leb (Row.category a) (Row.category b)
  | ColQuantity => Row.quantity a <=? Row.quantity b
  | ColUnitPrice => Qle_bool (Row.unit_price a) (Row.unit_price b)
  | ColCode => String.leb (Row.code a) (Row.code b)
  end.

Section Sort.
Context {A : Type} (leb : A -> A -> bool).

Fixpoint insert (x : A) (l : list A) : list A :=
  match l with
  | [] => [x]
  | y :: t => if leb x y then x :: l else y :: insert x t
  end.

Fixpoint sort (l : list A) : list A :=
  match l with
  | [] => []
  | x :: t => insert x (sort t)
  end.
End Sort.

(** [ORDER BY c d]; rows that compare equal keep their table order. *)
Definition order_by (c : column) (d : direction) (rows : list Row.t) : list Row.t :=
  match d with
  | Asc => sort (row_leb c) rows
  | Desc => sort (fun a b => row_leb c b a) rows
  end.





End Store.

Import Store.

(** ** GET /api/products *)

Record statements : Type := {
  query : string;
  countQuery : string;
  params : list jsvalue
}.

Definition pageNum (req : Query.t) : Z :=
  match Query.page req with
  | None => 1
  | Some p =>
      match parseInt p with
      | Some n => if n =? 0 then 1 else n
      | None => 1
      end
  end.

Definition limitNum (req : Query.t) : Z :=
  match Query.limit req with
  | None => 20
  | Some l =>
      match parseInt l with
      | Some n => if n =? 0 then 20 else n
      | None => 20
      end
  end.

Definition offset (req : Query.t) : Z := (pageNum req - 1) * limitNum req.

Definition addCategory (category : option string) (b : statements) : statements :=
  match category with
  | Some c =>
      if negb (c =? "")%string then
        {| query := query b ++ " AND category LIKE ?";
           countQuery := countQuery b ++ " AND category LIKE ?";
           params := params b ++ [JStr ("%" ++ c ++ "%")] |}
      else b
  | None => b
  end.

Definition addSearch (search : option string) (b : statements) : statements :=
  match search with
  | Some s =>
      if negb (s =? "")%string then
        let searchTerm := "%" ++ s ++ "%" in
        {| query := query b ++ " AND (name LIKE ? OR description LIKE ? OR code LIKE ?)";
           countQuery := countQuery b ++ " AND (name LIKE ? OR description LIKE ? OR code LIKE ?)";
           params := params b ++ [JStr searchTerm; JStr searchTerm; JStr searchTerm] |}
      else b
  | None => b
  end.

Definition addMinPrice (minPrice : option string) (b : statements) : statements :=
  match minPrice with
  | Some m =>
      if negb (m =? "")%string then
        {| query := query b ++ " AND unit_price >= ?";
           countQuery := countQuery b ++ " AND unit_price >= ?";
           params := params b ++ [JNum (parseFloat m)] |}
      else b
  | None => b
  end.

Definition addMaxPrice (maxPrice : option string) (b : statements) : statements :=
  match maxPrice with
  | Some m =>
      if negb (m =? "")%string then
        {| query := query b ++ " AND unit_price <= ?";
           countQuery := countQuery b ++ " AND unit_price <= ?";
           params := params b ++ [JNum (parseFloat m)] |}
      else b
  | None => b
  end.

Definition validSortColumns : list string :=
  ["id"; "name"; "category"; "quantity"; "unit_price"; "code"].

Definition includes (l : list string) (s : string) : bool :=
  existsb (String.eqb s) l.

Definition sortColumn (sortBy : option string) : string :=
  match sortBy with
  | None => "id"
  | Some s => if includes validSortColumns s then s else "id"
  end.

Definition sortOrder (order : option string) : string :=
  match order with
  | None => "ASC"
  | Some o => if (toUpperCase o =? "DESC")%string then "DESC" else "ASC"
  end.

(** The filters accumulated before the ORDER BY is appended. *)
Definition filters (req : Query.t) : statements :=
  addMaxPrice (Query.maxPrice req)
    (addMinPrice (Query.minPrice req)
       (addSearch (Query.search req)
          (addCategory (Query.category req)
             {| query := "SELECT * FROM products WHERE 1=1";
                countQuery := "SELECT COUNT(*) as total FROM products WHERE 1=1";
                params := [] |}))).

Definition buildQueries (req : Query.t) : statements :=
  let b := filters req in
  {| query := query b ++ " ORDER BY " ++ sortColumn (Query.sortBy req) ++ " "
                      ++ sortOrder (Query.order req) ++ " LIMIT ? OFFSET ?";
     countQuery := countQuery b;
     params := params b |}.

Definition jsInt (z : Z) : jsvalue := JNum (Fin (inject_Z z)).

(** The parameter array of the page query: [[...params, limitNum, offset]]. *)
Definition pageParams (req : Query.t) : list jsvalue :=
  params (buildQueries req) ++ [jsInt (limitNum req); jsInt (offset req)].




(** ** Request bodies and express-validator *)

Module Body.

(** A JSON value of a numeric field: absent, a string or a number. *)
Inductive field : Type :=
| Absent
| Str (s : string)
| Num (q : Q).

(** [req.body] of POST and PUT.  The text fields are strings or absent. *)
Record t : Type := mk {
  id : option string;
  category : option string;
  name : option string;
  description : option string;
  quantity : field;
  unit_price : field;
  code : option string
}.

End Body.

Module Validator.

(** express-validator turns the value into a string before a standard
    validator or sanitizer sees it; [undefined] becomes the empty string. *)
Definition toString (v : option string) : string :=
  match v with
  | Some s => s
  | None => EmptyString
  end.

(** [matches(/^\d{3}-\d{2}$/)] *)
Definition matchesId (s : string) : bool :=
  match s with
  | String a (String b (String c (String h (String d (String e EmptyString))))) =>
      isDigit a && isDigit b && isDigit c && (h =? "-")%char && isDigit d && isDigit e
  | _ => false
  end.

(** [isLength({ min, max })] *)
Definition isLength (min max : nat) (s : string) : bool :=
  ((min <=? String.length s) && (String.length s <=? max))%nat.

Definition allDigits (s : string) : bool :=
  let (_, rest) := spanDigits s in (rest =? "")%string.

Definition skipSign (s : string) : string :=
  match s with
  | String c r => if ((c =? "-") || (c =? "+"))%char then r else s
  | EmptyString => s
  end.

(** validator.js [isInt]: [/^[-+]?[0-9]+$/]. *)
Definition intRegex (s : string) : bool :=
  let d := skipSign s in negb (d =? "")%string && allDigits d.

(** The integer that a string accepted by [intRegex] denotes. *)
Definition intValue (s : string) : Z :=
  let (sign, d) := readSign s in sign * digitsValue d 0.

(** validator.js [isFloat]: an optional sign, optional digits, an optional
    point with optional digits, an optional exponent ([e] or [E], an optional
    sign, digits), and nothing else. *)
Definition unsignedFloat (s : string) : bool :=
  let (_, r1) := spanDigits s in
  let r2 :=
    match r1 with
    | String c r => if (c =? ".")%char then snd (spanDigits r) else r1
    | EmptyString => r1
    end in
  match r2 with
  | EmptyString => true
  | String c r =>
      ((c =? "e") || (c =? "E"))%char
      && (let d := skipSign r in negb (d =? "")%string && allDigits d)
  end.

Definition floatRegex (s : string) : bool := unsignedFloat (skipSign s).

Definition isInteger (q : Q) : bool := (Qden (Qred q) =? 1)%positive.

(** [isInt({ min: 0 })].  A JSON number is checked through its decimal text:
    it passes when it is a whole number from 0 up to (not including) 10^21. *)
Definition isInt (v : Body.field) : bool :=
  match v with
  | Body.Absent => false
  | Body.Str s => intRegex s && (0 <=? intValue s)
  | Body.Num q => isInteger q && Qle_bool 0 q && negb (Qle_bool (inject_Z (10 ^ 21)) q)
  end.

Definition nonNegative (n : number) : bool :=
  match n with
  | NaN => false
  | Inf negative => negb negative
  | Fin q => Qle_bool 0 q
  end.

(** [parseFloat] of a field value. *)
Definition fieldNumber (v : Body.field) : number :=
  match v with
  | Body.Absent => NaN
  | Body.Str s => parseFloat s
  | Body.Num q => Fin q
  end.

(** [isFloat({ min: 0 })].  A JSON number passes when it is at least 0. *)
Definition isFloat (v : Body.field) : bool :=
  match v with
  | Body.Absent => false
  | Body.Str s =>
      negb ((s =? "") || (s =? ".") || (s =? ",") || (s =? "-") || (s =? "+"))%string
      && floatRegex s && nonNegative (parseFloat s)
  | Body.Num q => Qle_bool 0 q
  end.

Definition check (ok : bool) (message : string) : list string :=
  if ok then [] else [message].

(** [validateProduct]: the messages of the validators that fail. *)
Definition validateProduct (b : Body.t) : list string :=
  check (matchesId (trim (toString (Body.id b)))) "ID must be in format XXX-XX"
  ++ check (isLength 1 100 (trim (toString (Body.category b))))
       "Category is required and must be less than 100 characters"
  ++ check (isLength 1 200 (trim (toString (Body.name b))))
       "Name is required and must be less than 200 characters"
  ++ match Body.description b with
     | None => []
     | Some d => check (isLength 0 1000 (trim d))
                   "Description must be less than 1000 characters"
     end
  ++ check (isInt (Body.quantity b)) "Quantity must be a non-negative integer"
  ++ check (isFloat (Body.unit_price b)) "Unit price must be a non-negative number"
  ++ check (isLength 1 50 (trim (toString (Body.code b))))
       "Code is required and must be less than 50 characters".

(** [validateId]: the path parameter is matched as it is. *)
Definition validateId (id : string) : list string :=
  check (matchesId id) "Invalid ID format".

(** The body as the handler sees it: [trim()] has rewritten the text fields
    it ran on ([description] only when it is supplied). *)
Definition sanitize (b : Body.t) : Body.t :=
  Body.mk (Some (trim (toString (Body.id b))))
          (Some (trim (toString (Body.category b))))
          (Some (trim (toString (Body.name b))))
          (option_map trim (Body.description b))
          (Body.quantity b)
          (Body.unit_price b)
          (Some (trim (toString (Body.code b)))).

End Validator.

(** ** Writes to the store *)

Module Write.

(** The six values of an INSERT or UPDATE after binding; [None] is NULL. *)
Record values : Type := {
  v_category : option string;
  v_name : option string;
  v_description : option string;
  v_quantity : option Z;
  v_unit_price : option Q;
  v_code : option string
}.

(** INTEGER affinity of [quantity]: a whole number, or text that spells one.
    Other values are outside the typed table of this model and count as NULL. *)
Definition sqlInteger (v : Body.field) : option Z :=
  match v with
  | Body.Absent => None
  | Body.Str s => if Validator.intRegex s then Some (Validator.intValue s) else None
  | Body.Num q => if Validator.isInteger q then Some (Qnum (Qred q)) else None
  end.

(** A JavaScript number bound to [unit_price]: NaN is NULL; an infinity is
    outside the typed table of this model and counts as NULL. *)
Definition sqlReal (n : number) : option Q :=
  match n with
  | Fin q => Some q
  | _ => None
  end.

Definition bindBody (b : Body.t) : values :=
  {| v_category := Body.category b;
     v_name := Body.name b;
     v_description := Body.description b;
     v_quantity := sqlInteger (Body.quantity b);
     v_unit_price := sqlReal (Validator.fieldNumber (Body.unit_price b));
     v_code := Body.code b |}.

(** The columns declared NOT NULL must all be given. *)
Definition complete (v : values) : option (string * string * Z * Q * string) :=
  match v_category v, v_name v, v_quantity v, v_unit_price v, v_code v with
  | Some c, Some n, Some q, Some p, Some k => Some (c, n, q, p, k)
  | _, _, _, _, _ => None
  end.

Definition hasId (id : string) (r : Row.t) : bool := (Row.id r =? id)%string.

(** [INSERT INTO products (id, category, name, description, quantity,
    unit_price, code) VALUES (?, ?, ?, ?, ?, ?, ?)]: both timestamps default
    to the clock.  [None] is [err] (a NULL or a taken primary key). *)
Definition insert (now : Z) (id : option string) (v : values) (t : table) : option table :=
  match id, complete v with
  | Some i, Some (c, n, q, p, k) =>
      if existsb (hasId i) t then None
      else Some (t ++ [Row.mk i c n (v_description v) q p k now now])%list
  | _, _ => None
  end.

Definition setColumns (c n : string) (d : option string) (q : Z) (p : Q) (k : string)
  (r : Row.t) : Row.t :=
  Row.mk (Row.id r) c n d q p k (Row.created_at r) (Row.updated_at r).

(** [UPDATE products SET category = ?, name = ?, description = ?,
    quantity = ?, unit_price = ?, code = ? WHERE id = ?]: the new table and
    [this.changes]; [None] is [err] (a NULL written to a matching row). *)
Definition update (v : values) (id : string) (t : table) : option (table * Z) :=
  if existsb (hasId id) t then
    match complete v with
    | Some (c, n, q, p, k) =>
        Some (map (fun r => if hasId id r then setColumns c n (v_description v) q p k r else r) t,
              Z.of_nat (List.length (filter (hasId id) t)))
    | None => None
    end
  else Some (t, 0).

End Write.

(** ** POST /api/products and PUT /api/products/:id *)

Inductive reply : Type :=
| Invalid (errors : list string)           (* 400 { errors } *)
| Status (code : Z) (message : string).    (* { error } or { id, message } *)

(** [!v] for a text field. *)
Definition missing (v : option string) : bool := negb (truthy v).

(** [!unit_price] *)
Definition falsy (v : Body.field) : bool :=
  match v with
  | Body.Absent => true
  | Body.Str s => (s =? "")%string
  | Body.Num q => Qeq_bool q 0
  end.

Definition isUndefined (v : Body.field) : bool :=
  match v with
  | Body.Absent => true
  | _ => false
  end.

(** [handleValidationErrors]: with errors the request ends in a 400 that
    lists them; with none the next handler runs. *)
Definition handleValidationErrors (errors : list string) : option reply :=
  match errors with
  | [] => None
  | _ :: _ => Some (Invalid errors)
  end.

(** [app.post('/api/products', ...)] at store time [now]. *)
Definition createProduct (now : Z) (body : Body.t) (t : table) : reply * table :=
  match handleValidationErrors (Validator.validateProduct body) with
  | Some rejected => (rejected, t)
  | None =>
      let b := Validator.sanitize body in
      if missing (Body.id b) || missing (Body.category b) || missing (Body.name b)
         || missing (Body.description b) || isUndefined (Body.quantity b)
         || falsy (Body.unit_price b) || missing (Body.code b)
      then (Status 400 "Missing required fields", t)
      else
        match Write.insert now (Body.id b) (Write.bindBody b) t with
        | None => (Status 500 "Failed to create product", t)
        | Some t' => (Status 201 "Product created successfully", t')
        end
  end.

(** [app.put('/api/products/:id', ...)] at store time [now]; the statement
    does not read the clock. *)
Definition updateProduct (now : Z) (id : string) (body : Body.t) (t : table) : reply * table :=
  match handleValidationErrors
          (Validator.validateId id ++ Validator.validateProduct body)%list with
  | Some rejected => (rejected, t)
  | None =>
      let b := Validator.sanitize body in
      match Write.update (Write.bindBody b) id t with
      | None => (Status 500 "Failed to update product", t)
      | Some (t', changes) =>
          if changes =? 0 then (Status 404 "Product not found", t')
          else (Status 200 "Product updated successfully", t')
      end
  end.

(** ** GET /api/statistics *)

Module Statistics.

Definition sumQuantity (t : table) : Z :=
  fold_left (fun acc r => acc + Row.quantity r) t 0.

Definition sumPrice (t : table) : Q :=
  fold_left (fun acc r => Qplus acc (Row.unit_price r)) t (0 # 1).

Definition Qmin (a b : Q) : Q := if Qle_bool a b then a else b.
Definition Qmax (a b : Q) : Q := if Qle_bool a b then b else a.

(** The aggregates are NULL ([None]) over an empty table. *)
Definition SUM_quantity (t : table) : option Z :=
  match t with
  | [] => None
  | _ => Some (sumQuantity t)
  end.

Definition AVG_unit_price (t : table) : option Q :=
  match t with
  | [] => None
  | _ => Some (Qred (sumPrice t / inject_Z (Z.of_nat (List.length t))))
  end.

Definition MIN_unit_price (t : table) : option Q :=
  match t with
  | [] => None
  | r :: rest => Some (fold_left (fun acc x => Qmin acc (Row.unit_price x)) rest (Row.unit_price r))
  end.

Definition MAX_unit_price (t : table) : option Q :=
  match t with
  | [] => None
  | r :: rest => Some (fold_left (fun acc x => Qmax acc (Row.unit_price x)) rest (Row.unit_price r))
  end.

(** The distinct category strings, compared byte for byte, in first-seen
    order. *)
Fixpoint distinct (l : list string) : list string :=
  match l with
  | [] => []
  | x :: r => x :: filter (fun y => negb (y =? x)%string) (distinct r)
  end.

Definition categories (t : table) : list string := distinct (map Row.category t).

Record group : Type := {
  g_category : string;
  g_count : Z;
  g_totalQuantity : Z
}.

Definition inCategory (c : string) (r : Row.t) : bool := (Row.category r =? c)%string.

(** [SELECT category, COUNT( * ) as count, SUM(quantity) as totalQuantity
    FROM products GROUP BY category]; the groups come in ascending category
    order. *)
Definition groupByCategory (t : table) : list group :=
  map (fun c => let rows := filter (inCategory c) t in
                {| g_category := c;
                   g_count := Z.of_nat (List.length rows);
                   g_totalQuantity := sumQuantity rows |})
      (sort String.leb (categories t)).

Record report : Type := {
  totalProducts : Z;
  totalQuantity : Z;
  averagePrice : numeral;
  minPrice : numeral;
  maxPrice : numeral;
  categoryCount : Z;
  categoryBreakdown : list group;
  timestamp : Z
}.

(** [x || 0] *)
Definition orZeroZ (x : option Z) : Z :=
  match x with
  | Some z => z
  | None => 0
  end.

Definition orZeroQ (x : option Q) : Q :=
  match x with
  | Some q => q
  | None => 0 # 1
  end.

(** [app.get('/api/statistics', ...)] answering at time [now]. *)
Definition getStatistics (now : Z) (t : table) : report :=
  {| totalProducts := Z.of_nat (List.length t);
     totalQuantity := orZeroZ (SUM_quantity t);
     averagePrice := toFixed (orZeroQ (AVG_unit_price t)) 2;
     minPrice := toFixed (orZeroQ (MIN_unit_price t)) 2;
     maxPrice := toFixed (orZeroQ (MAX_unit_price t)) 2;
     categoryCount := Z.of_nat (List.length (categories t));
     categoryBreakdown := groupByCategory t;
     timestamp := now |}.

End Statistics.

(** ** GET /api/products/export/csv *)

Module Csv.

Definition quoteChar : ascii := ascii_of_nat 34.
Definition quote : string := String quoteChar EmptyString.

(** [String.prototype.replace] as the export calls it: with the global
    pattern of one double-quote character and a replacement of two. *)
Fixpoint doubleQuotes (s : string) : string :=
  match s with
  | EmptyString => EmptyString
  | String c r =>
      if (c =? quoteChar)%char then String quoteChar (String quoteChar (doubleQuotes r))
      else String c (doubleQuotes r)
  end.



Section Rendering.
(** JavaScript's conversion of a number to a string, used for [quantity]
    and [unit_price] when the fields are joined. *)
Variable numberToString : Q -> string.

Definition orEmpty (d : option string) : string :=
  match d with
  | Some s => s
  | None => EmptyString
  end.

Definition values (row : Row.t) : list string :=
  [ Row.id row;
    quote ++ Row.category row ++ quote;
    quote ++ Row.name row ++ quote;
    quote ++ doubleQuotes (orEmpty (Row.description row)) ++ quote;
    numberToString (inject_Z (Row.quantity row));
    numberToString (Row.unit_price row);
    Row.code row ].


End Rendering.

End Csv.

(** ** The reference dataset (scripts/seed-db.js) *)

Module Seed.

Record product : Type := {
  id : string;
  category : string;
  name : string;
  description : string;
  quantity : Z;
  unit_price : Q;
  code : string
}.

Definition products : list product :=
  [ {| id := "000-01"; category := "clothing"; name := "bohoo clothes";
       description := "It's time to be the MAN! Discover boohooMAN's logo collection and fill up your wardrobe with these exclusive MAN branded items. Discover the MAN logo hoodies, the t-shirts, the tracksuits, the accessories (and much, much more) and add some attitude to your casual outfit.";
       quantity := 300; unit_price := 30 # 1; code := "000-01" |};
    {| id := "000-02"; category := "footwear"; name := "shoes";
       description := "Step into the party season in style with our exclusive selection of men's smart shoes. From the classic real leather cap brogues to the trendy heavy soled tassel loafers, whether it's a special event or a day in the office, this collection will impeccably complement any smart outfit and make you look dapper.";
       quantity := 115; unit_price := 118 # 1; code := "000-02" |};
    {| id := "000-03"; category := "Accessories"; name := "rings";
       description := "finish off your outfit with a cool piece of men's jewellery from boohooMAN's collection of jewellery and watches for men. Choose from loads of uber-trendy accessories including men's rings";
       quantity := 218; unit_price := 74 # 1; code := "000-03" |};
    {| id := "000-04"; category := "clothing"; name := "shirts";
       description := "Level up your shirt game with our extensive range of shirts in long and short sleeve styles! Whether you're looking for a classic Oxford shirt, or a check shirt, a cool but casual print or a go-to denim, we've got all the staples a man's wardrobe needs";
       quantity := 164; unit_price := 69 # 1; code := "000-04" |};
    {| id := "000-05"; category := "clothing"; name := "jackets";
       description := "A good coat is the backbone of any man's wardrobe, and with a huge range of men's puffers, macs, bombers, parkas, and more, we're here to ensure your outerwear is on-point through rain, hail, sleet, or shine.";
       quantity := 97; unit_price := 198 # 1; code := "000-05" |};
    {| id := "000-06"; category := "Clothing"; name := "Trousers";
       description := "neeed some trousers for every season go to boohoomans website and get one.";
       quantity := 59; unit_price := 98 # 1; code := "000-06" |};
    {| id := "000-07"; category := "Clothing"; name := "boohoo Hoodie";
       description := "THoodie or sweatshirt? No need to choose: our selection of men's tops includes a variety of hoodies and sweatshirts available in different colours, styles and fits. Both hoodies and sweatshirts are must-haves in every man's casual wardrobe, and very versatile pieces of clothing.";
       quantity := 100; unit_price := 60 # 1; code := "000-07" |};
    {| id := "000-08"; category := "Casual wear"; name := "sunglasses";
       description := "Choosing the right pair of men's sunglasses is a must and it needs to be done right. boohooMAN have trendy but affordable sunglasses for men that are only a click away!.";
       quantity := 100; unit_price := 45 # 1; code := "000-08" |};
    {| id := "000-09"; category := "Casual wear"; name := "belts";
       description := "Get some serious style skills under your belt with boohooMAN's range of men's belts! Whether you want to complement your everyday look or add the finishing touch to your smart outfit, our selection of real and faux leather belts is just all you need to wear.";
       quantity := 173; unit_price := 60 # 1; code := "000-09" |};
    {| id := "000-10"; category := "Bags"; name := "casual wear";
       description := "Too much stuff to carry around? Worry no more...boohooMAN's new range of men's bags and men's wallets is here to give your hands a break! Check out our extensive selection of MAN embroidered men's bags, cross body bags, holdalls and much, much more.";
       quantity := 138; unit_price := 40 # 1; code := "000-10" |} ].

(** One [stmt.run(...)] of the seeding loop; a failed insert is logged and
    the table is left as it was. *)
Definition insertProduct (now : Z) (t : table) (p : product) : table :=
  match Write.insert now (Some (id p))
          {| Write.v_category := Some (category p);
             Write.v_name := Some (name p);
             Write.v_description := Some (description p);
             Write.v_quantity := Some (quantity p);
             Write.v_unit_price := Some (unit_price p);
             Write.v_code := Some (code p) |} t with
  | Some t' => t'
  | None => t
  end.

(** The table after [init-db] and [seed] ran at time [now]. *)
Definition seeded (now : Z) : table := fold_left (insertProduct now) products [].

End Seed.

(** ** GET /api/products/:id, GET /api/products/category/:category,
       GET /api/categories and DELETE /api/products/:id *)

(** [db.get('SELECT * FROM products WHERE id = ?', [id], cb)]: the first row
    with that id; [None] is an [undefined] row. *)
Definition select_by_id (id : string) (t : table) : option Row.t :=
  find (Write.hasId id) t.

(** [db.all('SELECT * FROM products WHERE category LIKE ? ORDER BY name',
    [pattern], cb)] *)
Definition select_by_category (pattern : string) (t : table) : list Row.t :=
  order_by ColName Asc (filter (fun r => like pattern (Row.category r)) t).

(** [db.all('SELECT DISTINCT category FROM products ORDER BY category', [], cb)],
    each row reduced to its one column. *)
Definition select_categories (t : table) : list string :=
  sort String.leb (Statistics.categories t).

(** [db.run('DELETE FROM products WHERE id = ?', [id], cb)]: the new table
    and [this.changes]. *)
Definition delete_by_id (id : string) (t : table) : table * Z :=
  (filter (fun r => negb (Write.hasId id r)) t,
   Z.of_nat (List.length (filter (Write.hasId id) t))).

(** What a request for one product is answered with. *)
Inductive lookup : Type :=
| Product (row : Row.t)      (* 200 with the row *)
| NoProduct (r : reply).     (* 400 { errors } or 404 { error } *)

(** [app.get('/api/products/:id', validateId, handleValidationErrors, ...)] *)
Definition getProduct (id : string) (t : table) : lookup :=
  match handleValidationErrors (Validator.validateId id) with
  | Some rejected => NoProduct rejected
  | None =>
      match select_by_id id t with
      | None => NoProduct (Status 404 "Product not found")
      | Some row => Product row
      end
  end.

(** [app.get('/api/products/category/:category', ...)]; the parameter is not
    validated. *)
Definition getProductsByCategory (category : string) (t : table) : list Row.t :=
  select_by_category ("%" ++ category ++ "%") t.

(** [app.get('/api/categories', ...)] *)
Definition getCategories (t : table) : list string := select_categories t.

(** [app.delete('/api/products/:id', strictLimiter, validateId,
    handleValidationErrors, ...)] *)
Definition deleteProduct (id : string) (t : table) : reply * table :=
  match handleValidationErrors (Validator.validateId id) with
  | Some rejected => (rejected, t)
  | None =>
      let (t', changes) := delete_by_id id t in
      if changes =? 0 then (Status 404 "Product not found", t')
      else (Status 200 "Product deleted successfully", t')
  end.

(** ** The page script (public_html/app.js) *)

Module App.


(** [addToSearchHistory(term)]: the new value of [searchHistory], which is
    also what is written to [localStorage]. *)
Definition addToSearchHistory (term : string) (searchHistory : list string) : list string :=
  firstn 10 (term :: filter (fun item => negb (item =? term)%string) searchHistory).

End App.

(** * Vocabulary of the properties *)

Import Statistics.

(** A filter field that is supplied and not empty. *)
Definition present (v : option string) : option string :=
  match v with
  | Some s => if (s =? "")%string then None else Some s
  | None => None
  end.

Definition when {A : Type} (v : option string) (f : string -> list A) : list A :=
  match present v with
  | Some s => f s
  | None => []
  end.

(** The predicate list of a request: one conjunct per supplied filter. *)
Definition predicates (req : Query.t) : list clause :=
  when (Query.category req) (fun _ => [CategoryLike])
  ++ when (Query.search req) (fun _ => [SearchLike])
  ++ when (Query.minPrice req) (fun _ => [PriceGe])
  ++ when (Query.maxPrice req) (fun _ => [PriceLe]).

Definition where_sql (cs : list clause) : string :=
  fold_right (fun c s => clause_sql c ++ s) "" cs.

Definition filterParams (req : Query.t) : list jsvalue :=
  when (Query.category req) (fun c => [JStr ("%" ++ c ++ "%")])
  ++ when (Query.search req)
       (fun s => [JStr ("%" ++ s ++ "%"); JStr ("%" ++ s ++ "%"); JStr ("%" ++ s ++ "%")])
  ++ when (Query.minPrice req) (fun m => [JNum (parseFloat m)])
  ++ when (Query.maxPrice req) (fun m => [JNum (parseFloat m)]).

Definition bound_of (n : number) : bound :=
  match n with
  | NaN => BNull
  | Inf b => BInf b
  | Fin q => BNum q
  end.


Definition columnOf (sortBy : option string) : column :=
  match sortBy with
  | Some s =>
      if (s =? "name")%string then ColName
      else if (s =? "category")%string then ColCategory
      else if (s =? "quantity")%string then ColQuantity
      else if (s =? "unit_price")%string then ColUnitPrice
      else if (s =? "code")%string then ColCode
      else ColId
  | None => ColId
  end.

Definition directionOf (order : option string) : direction :=
  match order with
  | Some o => if (toUpperCase o =? "DESC")%string then Desc else Asc
  | None => Asc
  end.

(** Each optional step appends the same text to both statements. *)
Record extends (b b' : statements) (cs : list clause) (ps : list jsvalue) : Prop := {
  ext_query : query b' = (query b ++ where_sql cs)%string;
  ext_count : countQuery b' = (countQuery b ++ where_sql cs)%string;
  ext_params : params b' = (params b ++ ps)%list
}.

Definition kinds (a b c d : bool) : list clause :=
  (if a then [CategoryLike] else []) ++ (if b then [SearchLike] else [])
  ++ (if c then [PriceGe] else []) ++ (if d then [PriceLe] else []).

Definition isPresent (v : option string) : bool :=
  match present v with Some _ => true | None => false end.










(** A product with no [description]. *)
Definition withoutDescription : Body.t :=
  Body.mk (Some "123-45") (Some "clothing") (Some "socks") None
          (Body.Num (5 # 1)) (Body.Num (25 # 2)) (Some "123-45").

(** A product whose [unit_price] is the number 0. *)
Definition freeOfCharge : Body.t :=
  Body.mk (Some "123-46") (Some "clothing") (Some "sample") (Some "a free sample")
          (Body.Num (5 # 1)) (Body.Num (0 # 1)) (Some "123-46").

Definition replaceRow (v : Write.values) (c n : string) (q : Z) (p : Q) (k : string)
  (id : string) (r : Row.t) : Row.t :=
  if Write.hasId id r then Write.setColumns c n (Write.v_description v) q p k r else r.

Module CsvClaim.
Import Csv.







End CsvClaim.






(** ** Vocabulary of the further properties *)

(** The requests that write to the table. *)
Inductive write : Type :=
| Post (body : Body.t)
| Put (id : string) (body : Body.t)
| Delete (id : string).

(** The handler that the router picks for a write, at store time [now]. *)
Definition handle (now : Z) (w : write) (t : table) : reply * table :=
  match w with
  | Post body => createProduct now body t
  | Put id body => updateProduct now id body t
  | Delete id => deleteProduct id t
  end.

(** The id that a write addresses: the path parameter, or for POST the
    trimmed [id] of the body. *)
Definition target (w : write) : string :=
  match w with
  | Post body => trim (Validator.toString (Body.id body))
  | Put id _ => id
  | Delete id => id
  end.

(** No two rows have the same [id]. *)
Definition uniqueIds (t : table) : Prop := NoDup (map Row.id t).

(** The limits that [validateProduct] sets, read of a stored row. *)
Definition withinLimits (r : Row.t) : Prop :=
  Validator.matchesId (Row.id r) = true
  /\ Validator.isLength 1 100 (Row.category r) = true
  /\ Validator.isLength 1 200 (Row.name r) = true
  /\ (forall d, Row.description r = Some d -> Validator.isLength 0 1000 d = true)
  /\ 0 <= Row.quantity r
  /\ (0 <= Row.unit_price r)%Q
  /\ Validator.isLength 1 50 (Row.code r) = true.

(** The body with another [id]. *)
Definition withId (i : option string) (b : Body.t) : Body.t :=
  Body.mk i (Body.category b) (Body.name b) (Body.description b)
          (Body.quantity b) (Body.unit_price b) (Body.code b).

(** Occurrences of a character in a text. *)
Fixpoint occurrences (c : ascii) (s : string) : nat :=
  match s with
  | EmptyString => O
  | String d r => ((if (d =? c)%char then 1 else 0) + occurrences c r)%nat
  end.

(** The [?] placeholders of a statement. *)
Definition placeholders (sql : string) : nat := occurrences "?" sql.

Fixpoint lower (s : string) : string :=
  match s with
  | EmptyString => EmptyString
  | String c r => String (lowerChar c) (lower r)
  end.

(** [text] has a stretch that reads as [term] when the case of the letters
    A to Z is ignored. *)
Definition containsIgnoringCase (term text : string) : Prop :=
  exists before stretch after,
    text = (before ++ stretch ++ after)%string /\ lower stretch = lower term.

(** No LIKE wildcard in the text. *)
Fixpoint plain (s : string) : bool :=
  match s with
  | EmptyString => true
  | String c r => negb ((c =? "%") || (c =? "_"))%char && plain r
  end.



(** One run of the seeding loop over [ps], at store time [now]. *)
Definition seedWith (now : Z) (ps : list Seed.product) (t : table) : table :=
  fold_left (Seed.insertProduct now) ps t.

(** The handler's own test for a missing field, on the sanitised body. *)
Definition incomplete (b : Body.t) : bool :=
  missing (Body.id b) || missing (Body.category b) || missing (Body.name b)
  || missing (Body.description b) || isUndefined (Body.quantity b)
  || falsy (Body.unit_price b) || missing (Body.code b).

(** The row that a POST of [body] stores at time [now], for the numbers [q]
    and [p] that its [quantity] and [unit_price] denote. *)
Definition newRow (now : Z) (body : Body.t) (q : Z) (p : Q) : Row.t :=
  Row.mk (trim (Validator.toString (Body.id body)))
         (trim (Validator.toString (Body.category body)))
         (trim (Validator.toString (Body.name body)))
         (option_map trim (Body.description body))
         q p
         (trim (Validator.toString (Body.code body)))
         now now.

(** The row that a PUT of [body] makes of [old]. *)
Definition updatedRow (body : Body.t) (q : Z) (p : Q) (old : Row.t) : Row.t :=
  Row.mk (Row.id old)
         (trim (Validator.toString (Body.category body)))
         (trim (Validator.toString (Body.name body)))
         (option_map trim (Body.description body))
         q p
         (trim (Validator.toString (Body.code body)))
         (Row.created_at old) (Row.updated_at old).


(** * Properties *)

(** ** The statements built by the list endpoint *)

Lemma append_assoc (a b c : string) : ((a ++ b) ++ c = a ++ (b ++ c))%string.
Proof. induction a as [|x a IH]; simpl; [reflexivity | now rewrite IH]. Qed.

Lemma append_empty_r (a : string) : (a ++ "" = a)%string.
Proof. induction a as [|x a IH]; simpl; [reflexivity | now rewrite IH]. Qed.

Lemma where_sql_app (xs ys : list clause) :
  where_sql (xs ++ ys) = (where_sql xs ++ where_sql ys)%string.
Proof.
  induction xs as [|x xs IH]; simpl; [reflexivity|].
  now rewrite IH, append_assoc.
Qed.

Lemma extends_none (b : statements) : extends b b [] [].
Proof. split; simpl; now rewrite ?append_empty_r, ?app_nil_r. Qed.

Lemma extends_trans (b1 b2 b3 : statements) cs1 ps1 cs2 ps2 :
  extends b1 b2 cs1 ps1 -> extends b2 b3 cs2 ps2 ->
  extends b1 b3 (cs1 ++ cs2) (ps1 ++ ps2).
Proof.
  intros [q1 c1 p1] [q2 c2 p2]; split.
  - now rewrite q2, q1, where_sql_app, append_assoc.
  - now rewrite c2, c1, where_sql_app, append_assoc.
  - now rewrite p2, p1, app_assoc.
Qed.

Ltac step_extends v :=
  unfold when, present;
  destruct v as [s|]; [destruct (String.eqb s "")|]; simpl;
  try apply extends_none;
  split; simpl; rewrite ?append_empty_r; reflexivity.

Lemma addCategory_extends (v : option string) (b : statements) :
  extends b (addCategory v b) (when v (fun _ => [CategoryLike]))
    (when v (fun c => [JStr ("%" ++ c ++ "%")])).
Proof. unfold addCategory. step_extends v. Qed.

Lemma addSearch_extends (v : option string) (b : statements) :
  extends b (addSearch v b) (when v (fun _ => [SearchLike]))
    (when v (fun s => [JStr ("%" ++ s ++ "%"); JStr ("%" ++ s ++ "%"); JStr ("%" ++ s ++ "%")])).
Proof. unfold addSearch. step_extends v. Qed.

Lemma addMinPrice_extends (v : option string) (b : statements) :
  extends b (addMinPrice v b) (when v (fun _ => [PriceGe]))
    (when v (fun m => [JNum (parseFloat m)])).
Proof. unfold addMinPrice. step_extends v. Qed.

Lemma addMaxPrice_extends (v : option string) (b : statements) :
  extends b (addMaxPrice v b) (when v (fun _ => [PriceLe]))
    (when v (fun m => [JNum (parseFloat m)])).
Proof. unfold addMaxPrice. step_extends v. Qed.

Lemma filters_shape (req : Query.t) :
  query (filters req) = "SELECT * FROM products WHERE 1=1" ++ where_sql (predicates req)
  /\ countQuery (filters req)
     = "SELECT COUNT(*) as total FROM products WHERE 1=1" ++ where_sql (predicates req)
  /\ params (filters req) = filterParams req.
Proof.
  unfold filters.
  match goal with |- context [addCategory _ ?b] => set (b0 := b) end.
  set (b1 := addCategory (Query.category req) b0).
  set (b2 := addSearch (Query.search req) b1).
  set (b3 := addMinPrice (Query.minPrice req) b2).
  pose proof (addCategory_extends (Query.category req) b0) as H1.
  pose proof (addSearch_extends (Query.search req) b1) as H2.
  pose proof (addMinPrice_extends (Query.minPrice req) b2) as H3.
  pose proof (addMaxPrice_extends (Query.maxPrice req) b3) as H4.
  destruct (extends_trans _ _ _ _ _ _ _ H1
              (extends_trans _ _ _ _ _ _ _ H2
                 (extends_trans _ _ _ _ _ _ _ H3 H4))) as [Hq Hc Hp].
  unfold predicates, filterParams.
  rewrite Hq, Hc, Hp. repeat split.
Qed.

Lemma sortColumn_column (sortBy : option string) :
  sortColumn sortBy = column_sql (columnOf sortBy).
Proof.
  destruct sortBy as [s|]; [|reflexivity].
  unfold sortColumn, includes, validSortColumns, columnOf; simpl.
  destruct (String.eqb_spec s "id"); [subst; reflexivity|].
  repeat match goal with
         | |- context [String.eqb s ?k] => destruct (String.eqb_spec s k); [subst; reflexivity|]
         end.
  reflexivity.
Qed.

Lemma sortOrder_direction (order : option string) :
  sortOrder order = direction_sql (directionOf order).
Proof.
  destruct order as [o|]; [|reflexivity].
  unfold sortOrder, directionOf.
  destruct (String.eqb (toUpperCase o) "DESC"); reflexivity.
Qed.

Lemma buildQueries_shape (req : Query.t) :
  query (buildQueries req)
  = "SELECT * FROM products WHERE 1=1" ++ where_sql (predicates req)
    ++ " ORDER BY " ++ column_sql (columnOf (Query.sortBy req)) ++ " "
    ++ direction_sql (directionOf (Query.order req)) ++ " LIMIT ? OFFSET ?"
  /\ countQuery (buildQueries req)
     = "SELECT COUNT(*) as total FROM products WHERE 1=1" ++ where_sql (predicates req)
  /\ params (buildQueries req) = filterParams req.
Proof.
  destruct (filters_shape req) as (Hq & Hc & Hp).
  unfold buildQueries; simpl.
  rewrite Hq, Hc, Hp, sortColumn_column, sortOrder_direction.
  repeat split.
Qed.

Lemma predicates_kinds (req : Query.t) :
  predicates req
  = kinds (isPresent (Query.category req)) (isPresent (Query.search req))
          (isPresent (Query.minPrice req)) (isPresent (Query.maxPrice req)).
Proof.
  unfold predicates, kinds, when, isPresent.
  destruct (present (Query.category req)), (present (Query.search req)),
    (present (Query.minPrice req)), (present (Query.maxPrice req)); reflexivity.
Qed.



Lemma as_bound_bind (n : number) : as_bound (bind (JNum n)) = Some (bound_of n).
Proof. destruct n; reflexivity. Qed.





(** ** C1: the sort column and direction come from fixed sets *)









(** ** C2: the count and page statements share one WHERE clause *)


(** ** C3: pagination arithmetic *)






(** ** C4: a request without filters lists the whole table *)

Section SortFacts.
Context {A : Type} (leb : A -> A -> bool).
Hypothesis leb_total : forall a b, leb a b = true \/ leb b a = true.
Hypothesis leb_trans : forall a b c, leb a b = true -> leb b c = true -> leb a c = true.

Let le (a b : A) : Prop := leb a b = true.

Lemma insert_permutation (x : A) (l : list A) : Permutation (insert leb x l) (x :: l).
Proof.
  induction l as [|y l IH]; simpl; [reflexivity|].
  destruct (leb x y); [reflexivity|].
  rewrite IH. apply perm_swap.
Qed.

Lemma sort_permutation (l : list A) : Permutation (sort leb l) l.
Proof.
  induction l as [|x l IH]; simpl; [reflexivity|].
  rewrite insert_permutation. now constructor.
Qed.

Lemma insert_sorted (x : A) (l : list A) :
  StronglySorted le l -> StronglySorted le (insert leb x l).
Proof.
  induction 1 as [|y l Hs IH Hy]; simpl.
  - repeat constructor.
  - destruct (leb x y) eqn:E.
    + constructor; [now constructor|].
      constructor; [exact E|].
      eapply Forall_impl; [|exact Hy]. intros z Hz. exact (leb_trans _ _ _ E Hz).
    + constructor; [exact IH|].
      eapply Permutation_Forall; [symmetry; apply insert_permutation|].
      constructor; [|exact Hy].
      destruct (leb_total x y) as [H|H]; [congruence | exact H].
Qed.

Lemma sort_sorted (l : list A) : StronglySorted le (sort leb l).
Proof.
  induction l as [|x l IH]; simpl; [constructor | now apply insert_sorted].
Qed.
End SortFacts.

Lemma string_leb_trans (a b c : string) :
  (a <=? b)%string = true -> (b <=? c)%string = true -> (a <=? c)%string = true.
Proof.
  unfold String.leb. intros Hab Hbc.
  destruct (String.compare a b) eqn:E1; [| |discriminate].
  - apply String.compare_eq_iff in E1. subst. exact Hbc.
  - destruct (String.compare b c) eqn:E2; [| |discriminate].
    + apply String.compare_eq_iff in E2. subst. now rewrite E1.
    + assert (T : String.compare a c = Lt)
        by (exact (@StrictOrder_Transitive _ _ String_as_OT.lt_strorder a b c E1 E2)).
      now rewrite T.
Qed.



Lemma filter_all {A : Type} (f : A -> bool) (l : list A) :
  (forall x, f x = true) -> filter f l = l.
Proof.
  intros H. induction l as [|x l IH]; simpl; [reflexivity|].
  now rewrite H, IH.
Qed.




(** ** C10: a price bound that is not a number matches no row *)










(** ** C5: POST rejects bodies that the validators accept *)

(** C5.  The POST handler departs from its own validation rules: a body
    without [description] and a body with [unit_price] 0 both pass
    [validateProduct], where [description] is optional and [unit_price] has
    minimum 0, yet the handler answers 400 "Missing required fields" and
    stores nothing, because its check reads [!description] and
    [!unit_price]. *)
Theorem createProduct_rejects_valid_bodies (now : Z) (t : table) :
  Validator.validateProduct withoutDescription = []
  /\ createProduct now withoutDescription t = (Status 400 "Missing required fields", t)
  /\ Validator.validateProduct freeOfCharge = []
  /\ createProduct now freeOfCharge t = (Status 400 "Missing required fields", t).
Proof. repeat split. Qed.

(** The sibling paths: PUT stores the body without [description], and POST
    takes the price 0 when it is written as the string "0". *)
Lemma siblings_accept (now : Z) :
  updateProduct now "123-45" withoutDescription
    [Row.mk "123-45" "clothing" "socks" (Some "old") 1 (1 # 1) "123-45" 0 0]
  = (Status 200 "Product updated successfully",
     [Row.mk "123-45" "clothing" "socks" None 5 (25 # 2) "123-45" 0 0])
  /\ createProduct now
       (Body.mk (Some "123-46") (Some "clothing") (Some "sample") (Some "a free sample")
                (Body.Num (5 # 1)) (Body.Str "0") (Some "123-46")) []
     = (Status 201 "Product created successfully",
        [Row.mk "123-46" "clothing" "sample" (Some "a free sample") 5 (0 # 1) "123-46" now now]).
Proof. split; reflexivity. Qed.

(** ** C8 and C9: PUT *)

Lemma check_nil (ok : bool) (message : string) : Validator.check ok message = [] -> ok = true.
Proof. destruct ok; [reflexivity | discriminate]. Qed.

Lemma validateProduct_ok (b : Body.t) :
  Validator.validateProduct b = [] ->
  Validator.isInt (Body.quantity b) = true /\ Validator.isFloat (Body.unit_price b) = true.
Proof.
  unfold Validator.validateProduct. intros H.
  repeat match type of H with
         | (_ ++ _)%list = [] => apply app_eq_nil in H; let H1 := fresh in destruct H as [H1 H]
         end.
  repeat match goal with
         | H' : Validator.check _ _ = [] |- _ => apply check_nil in H'
         end.
  split; assumption.
Qed.

Lemma isInt_sqlInteger (v : Body.field) :
  Validator.isInt v = true -> exists z, Write.sqlInteger v = Some z.
Proof.
  destruct v as [|s|q]; simpl; intros H; [discriminate| |].
  - apply andb_true_iff in H. destruct H as [-> _]. eauto.
  - apply andb_true_iff in H. destruct H as [H _].
    apply andb_true_iff in H. destruct H as [-> _]. eauto.
Qed.

(** Facts about single characters, by enumeration. *)
Lemma whiteSpace_char (c : ascii) :
  isWhiteSpace c = true ->
  isDigit c = false /\ (c =? ".")%char = false /\ (c =? "e")%char = false
  /\ (c =? "E")%char = false /\ (c =? "-")%char = false /\ (c =? "+")%char = false.
Proof.
  destruct c as [[] [] [] [] [] [] [] []]; vm_compute; intros H;
    try discriminate H; repeat split.
Qed.

Lemma unsignedFloat_stuck (c : ascii) (r : string) :
  isDigit c = false -> (c =? ".")%char = false -> (c =? "e")%char = false ->
  (c =? "E")%char = false -> Validator.unsignedFloat (String c r) = false.
Proof.
  intros Hd Hp He HE. unfold Validator.unsignedFloat. simpl.
  rewrite Hd, Hp, He, HE. reflexivity.
Qed.

Lemma unsignedFloat_not_Infinity (s : string) :
  Validator.unsignedFloat s = true -> startsWith "Infinity" s = false.
Proof.
  destruct s as [|c r]; [reflexivity|]. intros H.
  destruct (Ascii.eqb_spec c "I") as [->|Hc].
  - rewrite unsignedFloat_stuck in H by reflexivity. discriminate.
  - change (startsWith "Infinity" (String c r))
      with (("I" =? c)%char && startsWith "nfinity" r).
    apply not_eq_sym, Ascii.eqb_neq in Hc. now rewrite Hc.
Qed.

Lemma readSign_skipSign (s : string) : snd (readSign s) = Validator.skipSign s.
Proof.
  destruct s as [|c r]; [reflexivity|]. unfold readSign, Validator.skipSign.
  destruct (c =? "-")%char; [reflexivity|]. destruct (c =? "+")%char; reflexivity.
Qed.

Lemma floatRegex_trimStart (s : string) :
  Validator.floatRegex s = true -> trimStart s = s.
Proof.
  destruct s as [|c r]; [reflexivity|]. intros H. simpl.
  destruct (isWhiteSpace c) eqn:W; [|reflexivity].
  destruct (whiteSpace_char c W) as (Hd & Hp & He & HE & Hm & Hpl).
  unfold Validator.floatRegex, Validator.skipSign in H. rewrite Hm, Hpl in H. simpl in H.
  rewrite unsignedFloat_stuck in H by assumption. discriminate.
Qed.

(** A string that [isFloat] accepts is read by [parseFloat] as a finite
    number. *)
Lemma floatRegex_finite (s : string) :
  Validator.floatRegex s = true -> Validator.nonNegative (parseFloat s) = true ->
  exists q, parseFloat s = Fin q.
Proof.
  intros Hr Hn. unfold parseFloat in *.
  rewrite (floatRegex_trimStart s Hr) in *.
  pose proof (readSign_skipSign s) as E.
  destruct (readSign s) as [sign s1]. simpl in E. subst s1.
  rewrite (unsignedFloat_not_Infinity _ Hr) in *.
  destruct (spanDigits (Validator.skipSign s)) as [ip r1].
  destruct (match r1 with
            | EmptyString => (EmptyString, r1)
            | String c r => if (c =? ".")%char then spanDigits r else (EmptyString, r1)
            end) as [fp r2].
  destruct ((ip =? "") && (fp =? ""))%string; [discriminate Hn | eauto].
Qed.

Lemma isFloat_sqlReal (v : Body.field) :
  Validator.isFloat v = true -> exists q, Validator.fieldNumber v = Fin q.
Proof.
  destruct v as [|s|q]; simpl; intros H; [discriminate| |eauto].
  apply andb_true_iff in H. destruct H as [H Hn].
  apply andb_true_iff in H. destruct H as [_ Hr].
  now apply floatRegex_finite.
Qed.

(** After validation every NOT NULL column receives a value. *)
Lemma valid_complete (b : Body.t) :
  Validator.validateProduct b = [] ->
  exists q p,
    Write.sqlInteger (Body.quantity b) = Some q
    /\ Validator.fieldNumber (Body.unit_price b) = Fin p
    /\ Write.complete (Write.bindBody (Validator.sanitize b))
       = Some (trim (Validator.toString (Body.category b)),
               trim (Validator.toString (Body.name b)), q, p,
               trim (Validator.toString (Body.code b))).
Proof.
  intros H. destruct (validateProduct_ok b H) as [Hi Hf].
  destruct (isInt_sqlInteger _ Hi) as [q Hq].
  destruct (isFloat_sqlReal _ Hf) as [p Hp].
  exists q, p. repeat split; try assumption.
  unfold Write.complete, Write.bindBody, Validator.sanitize. simpl.
  now rewrite Hq, Hp.
Qed.


Lemma update_found (v : Write.values) (id : string) (t : table) c n q p k :
  Write.complete v = Some (c, n, q, p, k) ->
  existsb (Write.hasId id) t = true ->
  Write.update v id t
  = Some (map (replaceRow v c n q p k id) t,
          Z.of_nat (List.length (filter (Write.hasId id) t))).
Proof. intros Hc He. unfold Write.update. now rewrite He, Hc. Qed.

Lemma existsb_filter_length {A : Type} (f : A -> bool) (l : list A) :
  existsb f l = true -> Z.of_nat (List.length (filter f l)) <> 0.
Proof.
  induction l as [|x l IH]; simpl; [discriminate|].
  destruct (f x); simpl; [lia | exact IH].
Qed.

Lemma replaceRow_hasId v c n q p k id (r : Row.t) :
  Write.hasId id (replaceRow v c n q p k id r) = Write.hasId id r.
Proof.
  unfold replaceRow. destruct (Write.hasId id r) eqn:E; [|exact E].
  unfold Write.hasId in *. exact E.
Qed.

Lemma replaceRow_idempotent v c n q p k id (r : Row.t) :
  replaceRow v c n q p k id (replaceRow v c n q p k id r) = replaceRow v c n q p k id r.
Proof.
  unfold replaceRow at 2 3. destruct (Write.hasId id r) eqn:E.
  - unfold replaceRow. change (Write.hasId id (Write.setColumns c n (Write.v_description v) q p k r))
      with (Write.hasId id r). rewrite E. reflexivity.
  - unfold replaceRow. now rewrite E.
Qed.





(** C9.  For a well-formed id that is in the table and a body that passes
    validation, PUT answers 200, and the same PUT on the resulting table
    answers 200 again and leaves that table as it is. *)
Theorem put_idempotent (now now' : Z) (id : string) (body : Body.t) (t : table) :
  Validator.validateId id = [] ->
  Validator.validateProduct body = [] ->
  (exists r, In r t /\ Row.id r = id) ->
  exists t',
    updateProduct now id body t = (Status 200 "Product updated successfully", t')
    /\ updateProduct now' id body t' = (Status 200 "Product updated successfully", t').
Proof.
  intros Hid Hbody (r & Hin & Hr).
  destruct (valid_complete body Hbody) as (q & p & _ & _ & Hc).
  set (v := Write.bindBody (Validator.sanitize body)) in *.
  set (c := trim (Validator.toString (Body.category body))) in *.
  set (n := trim (Validator.toString (Body.name body))) in *.
  set (k := trim (Validator.toString (Body.code body))) in *.
  assert (He : existsb (Write.hasId id) t = true).
  { apply existsb_exists. exists r. split; [exact Hin|].
    unfold Write.hasId. rewrite Hr. apply String.eqb_refl. }
  assert (He' : existsb (Write.hasId id) (map (replaceRow v c n q p k id) t) = true).
  { rewrite existsb_exists in *. destruct He as (x & Hx & Ex).
    exists (replaceRow v c n q p k id x). split; [now apply in_map|].
    now rewrite replaceRow_hasId. }
  exists (map (replaceRow v c n q p k id) t).
  unfold updateProduct. rewrite Hid, Hbody. cbn [app handleValidationErrors]. fold v.
  rewrite (update_found v id t c n q p k Hc He).
  rewrite (update_found v id _ c n q p k Hc He').
  pose proof (existsb_filter_length _ _ He) as N.
  pose proof (existsb_filter_length _ _ He') as N'.
  apply Z.eqb_neq in N, N'. rewrite N, N'.
  split; [reflexivity|].
  f_equal. rewrite map_map. apply map_ext. intros x. apply replaceRow_idempotent.
Qed.

(** The same PUT twice on the reference dataset. *)
Lemma put_idempotent_witness :
  let body := Body.mk (Some "000-04") (Some "clothing") (Some "shirts") (Some "striped")
                      (Body.Str "160") (Body.Str "59.5") (Some "000-04") in
  exists t',
    updateProduct 200 "000-04" body (Seed.seeded 100)
    = (Status 200 "Product updated successfully", t')
    /\ updateProduct 300 "000-04" body t' = (Status 200 "Product updated successfully", t').
Proof.
  intros body.
  apply (put_idempotent 200 300 "000-04" body (Seed.seeded 100)).
  - reflexivity.
  - reflexivity.
  - assert (E : existsb (Write.hasId "000-04") (Seed.seeded 100) = true)
      by (vm_compute; reflexivity).
    apply existsb_exists in E. destruct E as (r & Hin & Hr).
    exists r. split; [exact Hin | apply String.eqb_eq; exact Hr].
Defined.


(** ** C6: the CSV export *)






(** ** C7: the statistics report *)
























Lemma distinct_In (l : list string) (x : string) : In x (distinct l) <-> In x l.
Proof.
  induction l as [|y l IH]; simpl; [tauto|].
  rewrite filter_In, IH. split.
  - intros [H|[H _]]; auto.
  - intros [H|H]; [auto|].
    destruct (String.eqb_spec x y) as [E|E]; [auto|].
    right. split; [exact H | reflexivity].
Qed.

Lemma distinct_NoDup (l : list string) : NoDup (distinct l).
Proof.
  induction l as [|y l IH]; simpl; constructor.
  - rewrite filter_In. intros [_ H]. now rewrite String.eqb_refl in H.
  - now apply NoDup_filter.
Qed.

Lemma groupByCategory_categories (t : table) :
  map g_category (groupByCategory t) = sort String.leb (categories t).
Proof.
  unfold groupByCategory. rewrite map_map. simpl. apply map_id.
Qed.



(** They are "79.20", "30.00" and "198.00". *)
Lemma statistics_of_the_reference_dataset :
  let s := getStatistics 1 (Seed.seeded 0) in
  averagePrice s = Fixed "79.20" /\ minPrice s = Fixed "30.00"
  /\ maxPrice s = Fixed "198.00" /\ categoryCount s = 6.
Proof. repeat split; vm_compute; reflexivity. Qed.



(** * Further properties *)

(** ** The handlers that address one product *)

(** What an empty error list of [validateProduct] says of the text fields. *)
Lemma validateProduct_texts (b : Body.t) :
  Validator.validateProduct b = [] ->
  Validator.matchesId (trim (Validator.toString (Body.id b))) = true
  /\ Validator.isLength 1 100 (trim (Validator.toString (Body.category b))) = true
  /\ Validator.isLength 1 200 (trim (Validator.toString (Body.name b))) = true
  /\ (forall d, Body.description b = Some d -> Validator.isLength 0 1000 (trim d) = true)
  /\ Validator.isLength 1 50 (trim (Validator.toString (Body.code b))) = true.
Proof.
  unfold Validator.validateProduct. intros H.
  apply app_eq_nil in H. destruct H as [H1 H].
  apply app_eq_nil in H. destruct H as [H2 H].
  apply app_eq_nil in H. destruct H as [H3 H].
  apply app_eq_nil in H. destruct H as [H4 H].
  apply app_eq_nil in H. destruct H as [_ H].
  apply app_eq_nil in H. destruct H as [_ H7].
  apply check_nil in H1, H2, H3, H7.
  repeat split; try assumption.
  intros d Hd. rewrite Hd in H4. now apply check_nil in H4.
Qed.

Lemma validateId_ok (id : string) :
  Validator.validateId id = [] <-> Validator.matchesId id = true.
Proof.
  unfold Validator.validateId, Validator.check.
  destruct (Validator.matchesId id); split; intros H; try reflexivity; discriminate H.
Qed.

Lemma hasId_true (id : string) (r : Row.t) : Write.hasId id r = true <-> Row.id r = id.
Proof. unfold Write.hasId. apply String.eqb_eq. Qed.

Lemma absent_existsb (id : string) (t : table) :
  existsb (Write.hasId id) t = false <-> (forall r, In r t -> Row.id r <> id).
Proof.
  split.
  - intros H r Hin E.
    assert (X : existsb (Write.hasId id) t = true).
    { apply existsb_exists. exists r. split; [exact Hin | now apply hasId_true]. }
    congruence.
  - intros H. destruct (existsb (Write.hasId id) t) eqn:E; [|reflexivity].
    apply existsb_exists in E. destruct E as (r & Hin & Hr).
    apply hasId_true in Hr. now apply H in Hin.
Qed.

Lemma absent_not_in (id : string) (t : table) :
  existsb (Write.hasId id) t = false -> ~ In id (map Row.id t).
Proof.
  intros H Hin. apply in_map_iff in Hin. destruct Hin as (r & Hr & Hin).
  rewrite absent_existsb in H. exact (H r Hin Hr).
Qed.

Lemma absent_find (id : string) (t : table) :
  existsb (Write.hasId id) t = false <-> find (Write.hasId id) t = None.
Proof.
  induction t as [|r t IH]; simpl; [tauto|].
  destruct (Write.hasId id r); simpl; [split; discriminate | exact IH].
Qed.

Lemma absent_filter (id : string) (t : table) :
  existsb (Write.hasId id) t = false -> filter (Write.hasId id) t = [].
Proof.
  induction t as [|r t IH]; simpl; [reflexivity|].
  destruct (Write.hasId id r); simpl; [discriminate | exact IH].
Qed.

Lemma find_app {A : Type} (f : A -> bool) (l1 l2 : list A) :
  find f (l1 ++ l2)%list = match find f l1 with Some x => Some x | None => find f l2 end.
Proof.
  induction l1 as [|x l1 IH]; simpl; [reflexivity|].
  destruct (f x); [reflexivity | exact IH].
Qed.

(** POST on a body that passes validation: the three ways it can end. *)
Lemma createProduct_valid (now : Z) (body : Body.t) (t : table) :
  Validator.validateProduct body = [] ->
  exists q p,
    Write.sqlInteger (Body.quantity body) = Some q
    /\ Validator.fieldNumber (Body.unit_price body) = Fin p
    /\ createProduct now body t
       = if incomplete (Validator.sanitize body)
         then (Status 400 "Missing required fields", t)
         else if existsb (Write.hasId (target (Post body))) t
              then (Status 500 "Failed to create product", t)
              else (Status 201 "Product created successfully",
                    (t ++ [newRow now body q p])%list).
Proof.
  intros Hv. destruct (valid_complete body Hv) as (q & p & Hq & Hp & Hc).
  exists q, p. split; [exact Hq|]. split; [exact Hp|].
  unfold createProduct. rewrite Hv. cbn [handleValidationErrors].
  fold (incomplete (Validator.sanitize body)).
  destruct (incomplete (Validator.sanitize body)); [reflexivity|].
  unfold Write.insert. rewrite Hc.
  cbn [Validator.sanitize Body.id target].
  destruct (existsb _ t); reflexivity.
Qed.

(** The table after any POST: as before, or with one row more. *)
Lemma createProduct_table (now : Z) (body : Body.t) (t : table) :
  snd (createProduct now body t) = t
  \/ exists q p,
       Validator.validateProduct body = []
       /\ Write.sqlInteger (Body.quantity body) = Some q
       /\ Validator.fieldNumber (Body.unit_price body) = Fin p
       /\ existsb (Write.hasId (target (Post body))) t = false
       /\ createProduct now body t
          = (Status 201 "Product created successfully", (t ++ [newRow now body q p])%list).
Proof.
  destruct (Validator.validateProduct body) eqn:Hv.
  - destruct (createProduct_valid now body t Hv) as (q & p & Hq & Hp & H).
    rewrite H.
    destruct (incomplete (Validator.sanitize body)); [now left|].
    destruct (existsb _ t) eqn:E; [now left|].
    right. exists q, p. now repeat split.
  - left. unfold createProduct. now rewrite Hv.
Qed.

Lemma createProduct_201 (now : Z) (body : Body.t) (t t' : table) (message : string) :
  createProduct now body t = (Status 201 message, t') ->
  exists q p,
    Validator.validateProduct body = []
    /\ Write.sqlInteger (Body.quantity body) = Some q
    /\ Validator.fieldNumber (Body.unit_price body) = Fin p
    /\ incomplete (Validator.sanitize body) = false
    /\ existsb (Write.hasId (target (Post body))) t = false
    /\ t' = (t ++ [newRow now body q p])%list.
Proof.
  intros H.
  destruct (Validator.validateProduct body) eqn:Hv.
  - destruct (createProduct_valid now body t Hv) as (q & p & Hq & Hp & Hc).
    rewrite Hc in H.
    destruct (incomplete (Validator.sanitize body)); [discriminate H|].
    destruct (existsb _ t) eqn:E; [discriminate H|].
    injection H as _ <-. exists q, p. now repeat split.
  - unfold createProduct in H. rewrite Hv in H. discriminate H.
Qed.

(** PUT with a well-formed id and a body that passes validation. *)
Lemma updateProduct_valid (now : Z) (id : string) (body : Body.t) (t : table) :
  Validator.validateId id = [] ->
  Validator.validateProduct body = [] ->
  exists q p,
    Write.sqlInteger (Body.quantity body) = Some q
    /\ Validator.fieldNumber (Body.unit_price body) = Fin p
    /\ updateProduct now id body t
       = if existsb (Write.hasId id) t
         then (Status 200 "Product updated successfully",
               map (fun r => if Write.hasId id r then updatedRow body q p r else r) t)
         else (Status 404 "Product not found", t).
Proof.
  intros Hi Hv. destruct (valid_complete body Hv) as (q & p & Hq & Hp & Hc).
  exists q, p. split; [exact Hq|]. split; [exact Hp|].
  unfold updateProduct. rewrite Hi, Hv. cbn [app handleValidationErrors].
  unfold Write.update. rewrite Hc.
  destruct (existsb (Write.hasId id) t) eqn:E; [|reflexivity].
  pose proof (existsb_filter_length _ _ E) as Hn.
  apply Z.eqb_neq in Hn. now rewrite Hn.
Qed.

Lemma updateProduct_invalid (now : Z) (id : string) (body : Body.t) (t : table) :
  (Validator.validateId id ++ Validator.validateProduct body)%list <> [] ->
  exists errors, updateProduct now id body t = (Invalid errors, t).
Proof.
  intros H. unfold updateProduct.
  destruct (Validator.validateId id ++ Validator.validateProduct body)%list as [|e l];
    [contradiction|].
  now exists (e :: l).
Qed.

(** The table after any PUT: as before, or with the rows of that id rewritten. *)
Lemma updateProduct_table (now : Z) (id : string) (body : Body.t) (t : table) :
  snd (updateProduct now id body t) = t
  \/ exists q p,
       Validator.validateProduct body = []
       /\ Write.sqlInteger (Body.quantity body) = Some q
       /\ Validator.fieldNumber (Body.unit_price body) = Fin p
       /\ updateProduct now id body t
          = (Status 200 "Product updated successfully",
             map (fun r => if Write.hasId id r then updatedRow body q p r else r) t).
Proof.
  destruct (Validator.validateId id) eqn:Hi.
  - destruct (Validator.validateProduct body) eqn:Hv.
    + destruct (updateProduct_valid now id body t Hi Hv) as (q & p & Hq & Hp & H).
      destruct (existsb (Write.hasId id) t).
      * right. exists q, p. now repeat split.
      * left. now rewrite H.
    + destruct (updateProduct_invalid now id body t) as [e ->]; [|now left].
      rewrite Hi, Hv. discriminate.
  - destruct (updateProduct_invalid now id body t) as [e ->]; [|now left].
    rewrite Hi. discriminate.
Qed.

Lemma deleteProduct_table (id : string) (t : table) :
  snd (deleteProduct id t) = t
  \/ (Validator.matchesId id = true
      /\ snd (deleteProduct id t) = filter (fun r => negb (Write.hasId id r)) t).
Proof.
  unfold deleteProduct.
  destruct (Validator.validateId id) eqn:Hi; [|now left].
  cbn [handleValidationErrors delete_by_id].
  right. apply validateId_ok in Hi. split; [exact Hi|].
  destruct (_ =? 0); reflexivity.
Qed.

Lemma getProduct_valid (id : string) (t : table) :
  Validator.matchesId id = true ->
  getProduct id t
  = match find (Write.hasId id) t with
    | Some row => Product row
    | None => NoProduct (Status 404 "Product not found")
    end.
Proof.
  intros H. apply validateId_ok in H. unfold getProduct, select_by_id.
  now rewrite H.
Qed.



(** X2.  POST is not repeatable: once a body has been accepted with 201,
    the same body sent again is answered 500 "Failed to create product" and
    the table stays as the first request left it. *)
Theorem post_twice (now now' : Z) (body : Body.t) (t t' : table) (message : string) :
  createProduct now body t = (Status 201 message, t') ->
  createProduct now' body t' = (Status 500 "Failed to create product", t').
Proof.
  intros H. apply createProduct_201 in H.
  destruct H as (q & p & Hv & Hq & Hp & Hi & _ & ->).
  destruct (createProduct_valid now' body (t ++ [newRow now body q p])%list Hv)
    as (q' & p' & _ & _ & ->).
  rewrite Hi, existsb_app. cbn [existsb target].
  unfold Write.hasId at 2, newRow. cbn [Row.id].
  now rewrite String.eqb_refl, orb_true_r.
Qed.

Lemma post_twice_witness :
  let body := Body.mk (Some "000-99") (Some "test") (Some "New Test Product")
                      (Some "Test Description") (Body.Num (50 # 1)) (Body.Num (25 # 1))
                      (Some "000-99") in
  let row := Row.mk "000-99" "test" "New Test Product" (Some "Test Description")
                    50 (25 # 1) "000-99" 7 7 in
  createProduct 8 body [row] = (Status 500 "Failed to create product", [row]).
Proof.
  intros body row. exact (post_twice 7 8 body [] [row] _ eq_refl).
Defined.

Lemma NoDup_snoc {A : Type} (l : list A) (x : A) :
  NoDup l -> ~ In x l -> NoDup (l ++ [x])%list.
Proof.
  intros Hl Hx. apply (Permutation_NoDup (l := x :: l)).
  - apply Permutation_cons_append.
  - now constructor.
Qed.

Lemma NoDup_map_filter {A B : Type} (g : A -> B) (f : A -> bool) (l : list A) :
  NoDup (map g l) -> NoDup (map g (filter f l)).
Proof.
  induction l as [|x l IH]; simpl; intros H; [constructor|].
  inversion H as [|? ? Hx Hl]; subst.
  destruct (f x); simpl; [|now apply IH].
  constructor; [|now apply IH].
  intros Hin. apply Hx. apply in_map_iff in Hin. destruct Hin as (y & Hy & Hin).
  apply filter_In in Hin. apply in_map_iff. exists y. tauto.
Qed.

Lemma updated_ids (id : string) (body : Body.t) (q : Z) (p : Q) (t : table) :
  map Row.id (map (fun r => if Write.hasId id r then updatedRow body q p r else r) t)
  = map Row.id t.
Proof.
  rewrite map_map. apply map_ext. intros r.
  destruct (Write.hasId id r); reflexivity.
Qed.

(** X3.  The primary key holds through every write: if no two rows of the
    table share an id, none do after a POST, a PUT or a DELETE, whatever
    the request and however it is answered. *)
Theorem writes_keep_ids_unique (now : Z) (w : write) (t : table) :
  uniqueIds t -> uniqueIds (snd (handle now w t)).
Proof.
  unfold uniqueIds. intros H. destruct w as [body|id body|id]; cbn [handle].
  - destruct (createProduct_table now body t) as [->|(q & p & _ & _ & _ & Ha & ->)];
      [exact H|].
    cbn [snd]. rewrite map_app. cbn [map newRow Row.id].
    apply NoDup_snoc; [exact H | now apply absent_not_in].
  - destruct (updateProduct_table now id body t) as [->|(q & p & _ & _ & _ & ->)];
      [exact H|].
    cbn [snd]. now rewrite updated_ids.
  - destruct (deleteProduct_table id t) as [->|[_ ->]]; [exact H|].
    now apply NoDup_map_filter.
Qed.

Lemma writes_keep_ids_unique_witness :
  let row := Row.mk "000-01" "clothing" "Test Product" (Some "Test Description")
                    100 (50 # 1) "000-01" 0 0 in
  let body := Body.mk (Some "000-99") (Some "test") (Some "New Test Product")
                      (Some "Test Description") (Body.Num (50 # 1)) (Body.Num (25 # 1))
                      (Some "000-99") in
  uniqueIds [row] /\ uniqueIds (snd (handle 7 (Post body) [row])).
Proof.
  intros row body.
  assert (H : uniqueIds [row]).
  { unfold uniqueIds. simpl. constructor; [intros [] | constructor]. }
  split; [exact H | exact (writes_keep_ids_unique 7 (Post body) [row] H)].
Defined.

Lemma isInt_nonneg (v : Body.field) (z : Z) :
  Validator.isInt v = true -> Write.sqlInteger v = Some z -> 0 <= z.
Proof.
  destruct v as [|s|q]; simpl; intros H Hz; [discriminate| |].
  - apply andb_true_iff in H. destruct H as [Hr Hn]. rewrite Hr in Hz.
    injection Hz as <-. now apply Z.leb_le.
  - apply andb_true_iff in H. destruct H as [H _].
    apply andb_true_iff in H. destruct H as [Hi Hn]. rewrite Hi in Hz.
    injection Hz as <-. apply Qle_bool_iff in Hn.
    rewrite <- (Qred_correct q) in Hn. unfold Qle in Hn. simpl in Hn. lia.
Qed.

Lemma isFloat_nonneg (v : Body.field) (p : Q) :
  Validator.isFloat v = true -> Validator.fieldNumber v = Fin p -> (0 <= p)%Q.
Proof.
  destruct v as [|s|q]; simpl; intros H Hp; [discriminate| |].
  - apply andb_true_iff in H. destruct H as [_ Hn]. rewrite Hp in Hn.
    now apply Qle_bool_iff.
  - injection Hp as <-. now apply Qle_bool_iff.
Qed.

Lemma description_within (body : Body.t) :
  (forall d, Body.description body = Some d -> Validator.isLength 0 1000 (trim d) = true) ->
  forall d, option_map trim (Body.description body) = Some d ->
            Validator.isLength 0 1000 d = true.
Proof.
  intros H d. destruct (Body.description body) as [d'|]; simpl; [|discriminate].
  intros E. injection E as <-. now apply H.
Qed.

(** X4.  What [validateProduct] demands of a body holds of the table: if
    every stored row has a well-formed id, a category of 1 to 100, a name of
    1 to 200 and a code of 1 to 50 characters, a description of at most
    1000, and a quantity and a unit price that are not negative, then the
    same is true after a POST, a PUT or a DELETE. *)
Theorem writes_keep_rows_within_limits (now : Z) (w : write) (t : table) :
  Forall withinLimits t -> Forall withinLimits (snd (handle now w t)).
Proof.
  intros H. destruct w as [body|id body|id]; cbn [handle].
  - destruct (createProduct_table now body t) as [->|(q & p & Hv & Hq & Hp & _ & ->)];
      [exact H|].
    cbn [snd]. apply Forall_app. split; [exact H|]. constructor; [|constructor].
    destruct (validateProduct_texts body Hv) as (H1 & H2 & H3 & H4 & H5).
    destruct (validateProduct_ok body Hv) as [Hi Hf].
    unfold withinLimits, newRow. cbn.
    repeat split; try assumption.
    + now apply description_within.
    + exact (isInt_nonneg _ _ Hi Hq).
    + exact (isFloat_nonneg _ _ Hf Hp).
  - destruct (updateProduct_table now id body t) as [->|(q & p & Hv & Hq & Hp & ->)];
      [exact H|].
    cbn [snd]. rewrite Forall_map. eapply Forall_impl; [|exact H].
    intros r Hr. destruct (Write.hasId id r); [|exact Hr].
    destruct (validateProduct_texts body Hv) as (_ & H2 & H3 & H4 & H5).
    destruct (validateProduct_ok body Hv) as [Hi Hf].
    destruct Hr as (Hid & _).
    unfold withinLimits, updatedRow. cbn.
    repeat split; try assumption.
    + now apply description_within.
    + exact (isInt_nonneg _ _ Hi Hq).
    + exact (isFloat_nonneg _ _ Hf Hp).
  - destruct (deleteProduct_table id t) as [->|[_ ->]]; [exact H|].
    apply Forall_forall. intros r Hr. apply filter_In in Hr.
    rewrite Forall_forall in H. now apply H.
Qed.

Lemma writes_keep_rows_within_limits_witness :
  let body := Body.mk (Some "000-01") (Some "footwear") (Some "boots") None
                      (Body.Str "12") (Body.Num (99 # 2)) (Some "B-1") in
  Forall withinLimits (snd (handle 7 (Put "000-01" body) (Seed.seeded 0))).
Proof.
  intros body. apply writes_keep_rows_within_limits.
  repeat constructor; try discriminate; simpl; intros d E; injection E as <-; reflexivity.
Defined.

(** X5.  GET by id finds what is stored: when no two rows share an id,
    every row of the table whose id has the form of three digits, a hyphen
    and two digits is returned, as it is stored, by GET of that id; and
    whatever row GET returns is a row of the table with the requested id. *)
Theorem get_returns_the_stored_row (t : table) :
  uniqueIds t ->
  (forall r, In r t -> Validator.matchesId (Row.id r) = true ->
             getProduct (Row.id r) t = Product r)
  /\ (forall id r, getProduct id t = Product r ->
                   In r t /\ Row.id r = id /\ Validator.matchesId id = true).
Proof.
  intros Hu. split.
  - intros r Hin Hid. rewrite (getProduct_valid _ _ Hid).
    unfold uniqueIds in Hu. induction t as [|x t IH]; [destruct Hin|].
    cbn [find]. inversion Hu as [|? ? Hx Ht]; subst.
    destruct Hin as [->|Hin].
    + unfold Write.hasId. now rewrite String.eqb_refl.
    + destruct (Write.hasId (Row.id r) x) eqn:E; [|now apply IH].
      apply hasId_true in E. exfalso. apply Hx. rewrite E. now apply in_map.
  - intros id r H. unfold getProduct, select_by_id in H.
    destruct (Validator.validateId id) eqn:Hi; [|discriminate H].
    cbn [handleValidationErrors] in H.
    destruct (find (Write.hasId id) t) as [row|] eqn:E; [|discriminate H].
    injection H as <-. apply find_some in E. destruct E as [Hin Hr].
    apply hasId_true in Hr. apply validateId_ok in Hi. now repeat split.
Qed.

Lemma get_returns_the_stored_row_witness :
  let shoes := Row.mk "000-02" "footwear" "shoes" None 115 (118 # 1) "000-02" 0 0 in
  let rings := Row.mk "000-03" "Accessories" "rings" (Some "rings") 218 (74 # 1) "000-03" 0 0 in
  uniqueIds [shoes; rings] /\ getProduct "000-03" [shoes; rings] = Product rings.
Proof.
  intros shoes rings.
  assert (H : uniqueIds [shoes; rings]).
  { unfold uniqueIds. simpl. repeat constructor; simpl; intuition discriminate. }
  split; [exact H|].
  refine (proj1 (get_returns_the_stored_row [shoes; rings] H) rings _ eq_refl).
  simpl. auto.
Defined.

Lemma getProduct_find (id : string) (t t' : table) :
  find (Write.hasId id) t' = find (Write.hasId id) t -> getProduct id t' = getProduct id t.
Proof. intros H. unfold getProduct, select_by_id. now rewrite H. Qed.

Lemma find_other_updated (id id' : string) (body : Body.t) (q : Z) (p : Q) (t : table) :
  id <> id' ->
  find (Write.hasId id') (map (fun r => if Write.hasId id r then updatedRow body q p r else r) t)
  = find (Write.hasId id') t.
Proof.
  intros Hne. induction t as [|r t IH]; [reflexivity|]. cbn [map find].
  destruct (Write.hasId id r) eqn:E.
  - change (Write.hasId id' (updatedRow body q p r)) with (Write.hasId id' r).
    destruct (Write.hasId id' r) eqn:E'; [|exact IH].
    apply hasId_true in E, E'. congruence.
  - destruct (Write.hasId id' r); [reflexivity | exact IH].
Qed.

Lemma find_other_deleted (id id' : string) (t : table) :
  id <> id' ->
  find (Write.hasId id') (filter (fun r => negb (Write.hasId id r)) t)
  = find (Write.hasId id') t.
Proof.
  intros Hne. induction t as [|r t IH]; [reflexivity|]. cbn [filter find].
  destruct (Write.hasId id r) eqn:E; cbn [negb find].
  - destruct (Write.hasId id' r) eqn:E'; [|exact IH].
    apply hasId_true in E, E'. congruence.
  - destruct (Write.hasId id' r); [reflexivity | exact IH].
Qed.

(** X6.  A write touches one id only: after a POST, a PUT or a DELETE,
    GET of any id other than the one the write addresses (for POST, the
    trimmed [id] of the body) answers exactly as it did before. *)
Theorem writes_leave_other_ids_alone (now : Z) (w : write) (id' : string) (t : table) :
  target w <> id' ->
  getProduct id' (snd (handle now w t)) = getProduct id' t.
Proof.
  intros Hne. destruct w as [body|id body|id]; cbn [handle target] in *.
  - destruct (createProduct_table now body t) as [->|(q & p & _ & _ & _ & _ & ->)];
      [reflexivity|].
    cbn [snd]. apply getProduct_find. rewrite find_app.
    destruct (find (Write.hasId id') t); [reflexivity|].
    cbn [find]. unfold Write.hasId, newRow. cbn [Row.id].
    apply String.eqb_neq in Hne. now rewrite Hne.
  - destruct (updateProduct_table now id body t) as [->|(q & p & _ & _ & _ & ->)];
      [reflexivity|].
    cbn [snd]. apply getProduct_find. now apply find_other_updated.
  - destruct (deleteProduct_table id t) as [->|[_ ->]]; [reflexivity|].
    apply getProduct_find. now apply find_other_deleted.
Qed.

Lemma writes_leave_other_ids_alone_witness :
  let shoes := Row.mk "000-02" "footwear" "shoes" None 115 (118 # 1) "000-02" 0 0 in
  let rings := Row.mk "000-03" "Accessories" "rings" (Some "rings") 218 (74 # 1) "000-03" 0 0 in
  getProduct "000-03" (snd (handle 7 (Delete "000-02") [shoes; rings])) = Product rings.
Proof.
  intros shoes rings.
  refine (eq_trans (writes_leave_other_ids_alone 7 (Delete "000-02") "000-03"
                      [shoes; rings] _) eq_refl).
  discriminate.
Defined.

Lemma getProduct_absent (id : string) (t : table) :
  Validator.validateId id = [] -> existsb (Write.hasId id) t = false ->
  getProduct id t = NoProduct (Status 404 "Product not found").
Proof.
  intros Hi Ha. apply validateId_ok in Hi. rewrite (getProduct_valid _ _ Hi).
  apply absent_find in Ha. now rewrite Ha.
Qed.

Lemma filter_others (id : string) (t : table) :
  existsb (Write.hasId id) t = false -> filter (fun r => negb (Write.hasId id r)) t = t.
Proof.
  induction t as [|r t IH]; [reflexivity|]. cbn [existsb filter].
  intros H. apply orb_false_iff in H. destruct H as [Hr Ht].
  rewrite Hr. cbn [negb]. f_equal. now apply IH.
Qed.

Lemma deleteProduct_absent (id : string) (t : table) :
  Validator.validateId id = [] -> existsb (Write.hasId id) t = false ->
  deleteProduct id t = (Status 404 "Product not found", t).
Proof.
  intros Hi Ha. unfold deleteProduct, delete_by_id. rewrite Hi.
  cbn [handleValidationErrors].
  now rewrite (absent_filter _ _ Ha), (filter_others _ _ Ha).
Qed.

(** X7.  An id that no row has is answered 404 "Product not found" by all
    three handlers that take an id, and neither PUT nor DELETE changes the
    table: PUT does not create the product. *)
Theorem absent_id_is_not_found (now : Z) (id : string) (body : Body.t) (t : table) :
  Validator.validateId id = [] ->
  Validator.validateProduct body = [] ->
  (forall r, In r t -> Row.id r <> id) ->
  getProduct id t = NoProduct (Status 404 "Product not found")
  /\ updateProduct now id body t = (Status 404 "Product not found", t)
  /\ deleteProduct id t = (Status 404 "Product not found", t).
Proof.
  intros Hi Hv Ha. apply absent_existsb in Ha. repeat split.
  - now apply getProduct_absent.
  - unfold updateProduct, Write.update. rewrite Hi, Hv, Ha. reflexivity.
  - now apply deleteProduct_absent.
Qed.

Lemma absent_id_is_not_found_witness :
  let shoes := Row.mk "000-02" "footwear" "shoes" None 115 (118 # 1) "000-02" 0 0 in
  let body := Body.mk (Some "999-99") (Some "footwear") (Some "boots") None
                      (Body.Str "12") (Body.Num (99 # 2)) (Some "B-1") in
  getProduct "999-99" [shoes] = NoProduct (Status 404 "Product not found")
  /\ updateProduct 7 "999-99" body [shoes] = (Status 404 "Product not found", [shoes])
  /\ deleteProduct "999-99" [shoes] = (Status 404 "Product not found", [shoes]).
Proof.
  intros shoes body.
  apply (absent_id_is_not_found 7 "999-99" body [shoes] eq_refl eq_refl).
  intros r [<-|[]]. discriminate.
Defined.

Lemma filter_negb_hasId (id : string) (t : table) :
  existsb (Write.hasId id) (filter (fun r => negb (Write.hasId id r)) t) = false.
Proof.
  apply absent_existsb. intros r Hr E. apply filter_In in Hr. destruct Hr as [_ Hr].
  apply hasId_true in E. rewrite E in Hr. discriminate Hr.
Qed.

(** X8.  DELETE of a well-formed id that is in the table answers 200
    "Product deleted successfully"; the table then holds exactly the rows
    of other ids, and a GET or a second DELETE of that id is answered 404
    "Product not found". *)
Theorem delete_then_not_found (id : string) (t : table) :
  Validator.validateId id = [] ->
  (exists r, In r t /\ Row.id r = id) ->
  exists t',
    deleteProduct id t = (Status 200 "Product deleted successfully", t')
    /\ (forall r, In r t' <-> In r t /\ Row.id r <> id)
    /\ getProduct id t' = NoProduct (Status 404 "Product not found")
    /\ deleteProduct id t' = (Status 404 "Product not found", t').
Proof.
  intros Hi (r & Hin & Hr).
  exists (filter (fun r => negb (Write.hasId id r)) t).
  assert (He : existsb (Write.hasId id) t = true).
  { apply existsb_exists. exists r. split; [exact Hin | now apply hasId_true]. }
  pose proof (filter_negb_hasId id t) as Ha.
  assert (Hrows : forall x, In x (filter (fun r => negb (Write.hasId id r)) t)
                            <-> In x t /\ Row.id x <> id).
  { intros x. rewrite filter_In. unfold Write.hasId.
    destruct (String.eqb_spec (Row.id x) id); simpl; intuition congruence. }
  split; [|split; [exact Hrows|]].
  - unfold deleteProduct, delete_by_id. rewrite Hi. cbn [handleValidationErrors].
    pose proof (existsb_filter_length _ _ He) as Hn.
    apply Z.eqb_neq in Hn. now rewrite Hn.
  - split; [now apply getProduct_absent | now apply deleteProduct_absent].
Qed.

Lemma delete_then_not_found_witness :
  let shoes := Row.mk "000-02" "footwear" "shoes" None 115 (118 # 1) "000-02" 0 0 in
  let rings := Row.mk "000-03" "Accessories" "rings" (Some "rings") 218 (74 # 1) "000-03" 0 0 in
  exists t',
    deleteProduct "000-02" [shoes; rings] = (Status 200 "Product deleted successfully", t')
    /\ (forall r, In r t' <-> In r [shoes; rings] /\ Row.id r <> "000-02")
    /\ getProduct "000-02" t' = NoProduct (Status 404 "Product not found")
    /\ deleteProduct "000-02" t' = (Status 404 "Product not found", t').
Proof.
  intros shoes rings.
  apply (delete_then_not_found "000-02" [shoes; rings] eq_refl).
  exists shoes. split; [now left | reflexivity].
Defined.

(** X9.  PUT takes the id from the path alone: the [id] of the body must
    be well formed, but which id it is makes no difference to the answer or
    to the table. *)
Theorem put_ignores_the_body_id (now : Z) (id : string) (i : option string)
  (body : Body.t) (t : table) :
  Validator.matchesId (trim (Validator.toString i)) = true ->
  Validator.matchesId (trim (Validator.toString (Body.id body))) = true ->
  updateProduct now id (withId i body) t = updateProduct now id body t.
Proof.
  intros Hi Hb. unfold updateProduct.
  assert (Hv : Validator.validateProduct (withId i body) = Validator.validateProduct body).
  { unfold Validator.validateProduct, withId. cbn [Body.id Body.category Body.name
      Body.description Body.quantity Body.unit_price Body.code].
    now rewrite Hi, Hb. }
  rewrite Hv. reflexivity.
Qed.

Lemma put_ignores_the_body_id_witness :
  let shoes := Row.mk "000-02" "footwear" "shoes" None 115 (118 # 1) "000-02" 0 0 in
  let body := Body.mk (Some "000-02") (Some "footwear") (Some "boots") None
                      (Body.Str "12") (Body.Num (99 # 2)) (Some "B-1") in
  updateProduct 7 "000-02" (withId (Some "999-99") body) [shoes]
  = (Status 200 "Product updated successfully",
     [Row.mk "000-02" "footwear" "boots" None 12 (99 # 2) "B-1" 0 0]).
Proof.
  intros shoes body.
  exact (eq_trans (put_ignores_the_body_id 7 "000-02" (Some "999-99") body [shoes]
                     eq_refl eq_refl) eq_refl).
Defined.




(** ** The listing: what a page holds and how the statements are made *)


Lemma In_firstn {A : Type} (n : nat) (l : list A) (x : A) : In x (firstn n l) -> In x l.
Proof.
  revert l. induction n as [|n IH]; intros l H; [destruct H|].
  destruct l as [|y l]; [exact H|]. destruct H as [H|H]; [now left|].
  right. now apply IH.
Qed.







Lemma row_leb_total (c : column) (a b : Row.t) :
  row_leb c a b = true \/ row_leb c b a = true.
Proof.
  destruct c; cbn [row_leb]; try apply String.leb_total.
  - destruct (Z.leb_spec (Row.quantity a) (Row.quantity b)); [now left|].
    right. apply Z.leb_le. lia.
  - destruct (Qlt_le_dec (Row.unit_price b) (Row.unit_price a)) as [H|H].
    + right. apply Qle_bool_iff. now apply Qlt_le_weak.
    + left. now apply Qle_bool_iff.
Qed.

Lemma row_leb_trans (c : column) (x y z : Row.t) :
  row_leb c x y = true -> row_leb c y z = true -> row_leb c x z = true.
Proof.
  destruct c; cbn [row_leb]; try apply string_leb_trans.
  - rewrite !Z.leb_le. lia.
  - rewrite !Qle_bool_iff. apply Qle_trans.
Qed.




Lemma occurrences_app (c : ascii) (a b : string) :
  occurrences c (a ++ b) = (occurrences c a + occurrences c b)%nat.
Proof.
  induction a as [|d a IH]; [reflexivity|]. cbn [append occurrences].
  rewrite IH. lia.
Qed.

Lemma placeholders_where (req : Query.t) :
  placeholders (where_sql (predicates req)) = List.length (filterParams req).
Proof.
  unfold predicates, filterParams, when.
  destruct (present (Query.category req)), (present (Query.search req)),
    (present (Query.minPrice req)), (present (Query.maxPrice req)); reflexivity.
Qed.

(** X13.  Each statement of the listing is run with exactly as many
    parameters as it has [?] placeholders: the count statement with
    [params], the page statement with [params] and then the limit and the
    offset. *)
Theorem one_parameter_per_placeholder (req : Query.t) :
  placeholders (countQuery (buildQueries req)) = List.length (params (buildQueries req))
  /\ placeholders (query (buildQueries req)) = List.length (pageParams req).
Proof.
  unfold pageParams. rewrite length_app.
  destruct (buildQueries_shape req) as (-> & -> & ->).
  unfold placeholders. rewrite !occurrences_app.
  fold (placeholders (where_sql (predicates req))). rewrite placeholders_where.
  split; [reflexivity|].
  destruct (columnOf (Query.sortBy req)), (directionOf (Query.order req));
    cbn; lia.
Qed.

(** X14.  No value of the request reaches the text of a statement: two
    requests that supply the same ones of the four filters (whatever their
    values), and whose [sortBy] and [order] select the same column and the
    same direction, run the same two statement texts. *)
Theorem statement_text_is_independent_of_values (r1 r2 : Query.t) :
  isPresent (Query.category r1) = isPresent (Query.category r2) ->
  isPresent (Query.search r1) = isPresent (Query.search r2) ->
  isPresent (Query.minPrice r1) = isPresent (Query.minPrice r2) ->
  isPresent (Query.maxPrice r1) = isPresent (Query.maxPrice r2) ->
  sortColumn (Query.sortBy r1) = sortColumn (Query.sortBy r2) ->
  sortOrder (Query.order r1) = sortOrder (Query.order r2) ->
  query (buildQueries r1) = query (buildQueries r2)
  /\ countQuery (buildQueries r1) = countQuery (buildQueries r2).
Proof.
  intros Hc Hs Hmin Hmax Hcol Hdir.
  destruct (buildQueries_shape r1) as (-> & -> & _).
  destruct (buildQueries_shape r2) as (-> & -> & _).
  rewrite <- !sortColumn_column, <- !sortOrder_direction, !predicates_kinds.
  now rewrite Hc, Hs, Hmin, Hmax, Hcol, Hdir.
Qed.

Lemma statement_text_is_independent_of_values_witness :
  let r1 := Query.mk (Some "shoes") None (Some "10") None (Some "name") (Some "desc")
                     None None in
  let r2 := Query.mk (Some "x' OR '1'='1") None (Some "1; DROP TABLE products") None
                     (Some "name") (Some "DESC") (Some "3") None in
  query (buildQueries r2)
  = "SELECT * FROM products WHERE 1=1 AND category LIKE ? AND unit_price >= ? ORDER BY name DESC LIMIT ? OFFSET ?".
Proof.
  intros r1 r2.
  refine (eq_trans (eq_sym (proj1 (statement_text_is_independent_of_values r1 r2
            eq_refl eq_refl eq_refl eq_refl eq_refl eq_refl))) eq_refl).
Defined.

(** ** The category route and the category list *)

(** A leading percent sign lets the rest of the pattern start anywhere. *)
Lemma like_percent (p text : string) :
  like (String "%" p) text = true
  <-> exists before after, text = (before ++ after)%string /\ like p after = true.
Proof.
  split.
  - induction text as [|d t IH]; intros H.
    + exists EmptyString, EmptyString. split; [reflexivity|].
      cbn in H. now rewrite orb_false_r in H.
    + cbn in H. apply orb_true_iff in H. destruct H as [H|H].
      * exists EmptyString, (String d t). now split.
      * destruct (IH H) as (b & a & -> & Ha).
        exists (String d b), a. now split.
  - intros (b & a & -> & Ha). induction b as [|d b IH].
    + destruct a; cbn; cbn in Ha; now rewrite Ha.
    + cbn. cbn in IH. rewrite IH. apply orb_true_r.
Qed.

Lemma like_percent_only (text : string) : like "%" text = true.
Proof.
  apply like_percent. exists text, EmptyString. split; [|reflexivity].
  now rewrite append_empty_r.
Qed.

Lemma lower_cons (stretch : string) (a : ascii) (c : string) :
  lower stretch = lower (String a c) ->
  exists d s, stretch = String d s /\ lowerChar d = lowerChar a /\ lower s = lower c.
Proof.
  destruct stretch as [|d s]; cbn; intros H; [discriminate H|].
  injection H as Hd Hs. now exists d, s.
Qed.

(** A term is matched by any text that reads the same but for case. *)
Lemma like_literal (c q stretch rest : string) :
  lower stretch = lower c -> like q rest = true ->
  like (c ++ q) (stretch ++ rest) = true.
Proof.
  revert stretch. induction c as [|a c IH]; intros stretch Hl Hq.
  - destruct stretch; [exact Hq | discriminate Hl].
  - apply lower_cons in Hl. destruct Hl as (d & s & -> & Hd & Hs).
    specialize (IH s Hs Hq).
    destruct (Ascii.eqb_spec a "%") as [->|Hne].
    + apply like_percent. exists (String d EmptyString), (s ++ rest). now split.
    + cbn [append like]. apply Ascii.eqb_neq in Hne. rewrite Hne, Hd, IH.
      now rewrite Ascii.eqb_refl, orb_true_r.
Qed.

(** Without wildcards in it, a term is matched by such a text only. *)
Lemma like_plain (c q text : string) :
  plain c = true -> like (c ++ q) text = true ->
  exists stretch rest,
    text = (stretch ++ rest)%string /\ lower stretch = lower c /\ like q rest = true.
Proof.
  revert text. induction c as [|a c IH]; intros text Hp H.
  - exists EmptyString, text. now repeat split.
  - cbn [plain] in Hp. apply andb_true_iff in Hp. destruct Hp as [Ha Hp].
    apply negb_true_iff, orb_false_iff in Ha. destruct Ha as [Ha1 Ha2].
    cbn [append like] in H. rewrite Ha1, Ha2 in H.
    destruct text as [|d t]; [discriminate H|].
    apply andb_true_iff in H. destruct H as [Hd H].
    cbn [orb] in Hd. apply Ascii.eqb_eq in Hd.
    destruct (IH t Hp H) as (s & rest & -> & Hs & Hq).
    exists (String d s), rest. repeat split; [|exact Hq].
    cbn. now rewrite Hd, Hs.
Qed.

Lemma like_contains (term text : string) :
  containsIgnoringCase term text -> like ("%" ++ term ++ "%") text = true.
Proof.
  intros (b & s & a & -> & Hs). apply like_percent.
  exists b, (s ++ a). split; [reflexivity|].
  apply like_literal; [exact Hs | apply like_percent_only].
Qed.

Lemma like_contains_plain (term text : string) :
  plain term = true -> like ("%" ++ term ++ "%") text = true ->
  containsIgnoringCase term text.
Proof.
  intros Hp H. apply like_percent in H. destruct H as (b & a & -> & H).
  apply (like_plain _ _ _ Hp) in H. destruct H as (s & rest & -> & Hs & _).
  now exists b, s, rest.
Qed.

Lemma getProductsByCategory_In (category : string) (t : table) (r : Row.t) :
  In r (getProductsByCategory category t)
  <-> In r t /\ like ("%" ++ category ++ "%") (Row.category r) = true.
Proof.
  unfold getProductsByCategory, select_by_category, order_by.
  transitivity (In r (filter (fun x => like ("%" ++ category ++ "%") (Row.category x)) t)).
  - split; apply Permutation_in; [|symmetry]; apply sort_permutation.
  - apply filter_In.
Qed.

(** X15.  The category route lists, in ascending order of name, the rows
    whose category contains the term, the case of the letters A to Z not
    counting: every such row is listed, and when the term has no percent
    sign and no underscore nothing else is.  Those two characters are not
    taken literally: the term made of one percent sign lists every row. *)
Theorem category_route_lists_containing_rows (category : string) (t : table) :
  (forall r, In r t -> containsIgnoringCase category (Row.category r) ->
             In r (getProductsByCategory category t))
  /\ (plain category = true ->
      forall r, In r (getProductsByCategory category t) ->
                In r t /\ containsIgnoringCase category (Row.category r))
  /\ StronglySorted (fun a b => (Row.name a <=? Row.name b)%string = true)
                    (getProductsByCategory category t)
  /\ Permutation (getProductsByCategory "%" t) t.
Proof.
  split; [|split; [|split]].
  - intros r Hin Hc. apply getProductsByCategory_In.
    split; [exact Hin | now apply like_contains].
  - intros Hp r H. apply getProductsByCategory_In in H. destruct H as [Hin H].
    split; [exact Hin | now apply like_contains_plain].
  - apply (sort_sorted (row_leb ColName));
      [apply row_leb_total | apply row_leb_trans].
  - unfold getProductsByCategory, select_by_category, order_by.
    rewrite sort_permutation, filter_all; [reflexivity|].
    intros r. apply like_percent. exists EmptyString, (Row.category r).
    split; [reflexivity|].
    apply like_percent. exists EmptyString, (Row.category r).
    split; [reflexivity | apply like_percent_only].
Qed.

Lemma StronglySorted_strict {A : Type} (R : A -> A -> Prop) (l : list A) :
  StronglySorted R l -> NoDup l -> StronglySorted (fun a b => R a b /\ a <> b) l.
Proof.
  induction 1 as [|x l Hs IH Hx]; intros Hn; [constructor|].
  inversion Hn as [|? ? Hnx Hnl]; subst.
  constructor; [now apply IH|].
  rewrite Forall_forall in *. intros y Hy. split; [now apply Hx|].
  intros ->. contradiction.
Qed.

Lemma getCategories_In (t : table) (c : string) :
  In c (getCategories t) <-> exists r, In r t /\ Row.category r = c.
Proof.
  unfold getCategories, select_categories, categories.
  transitivity (In c (distinct (map Row.category t))).
  - split; apply Permutation_in; [|symmetry]; apply sort_permutation.
  - rewrite distinct_In, in_map_iff.
    split; intros (r & H1 & H2); exists r; tauto.
Qed.

Lemma getCategories_NoDup (t : table) : NoDup (getCategories t).
Proof.
  unfold getCategories, select_categories, categories.
  eapply Permutation_NoDup; [symmetry; apply sort_permutation | apply distinct_NoDup].
Qed.

(** X16.  The category list is strictly ascending, character code by
    character code, so it names no category twice; it names exactly the
    category strings that occur in the table, which are also, one entry
    each, the categories of the breakdown in the statistics, whose
    [categoryCount] is the length of the list. *)
Theorem categories_are_ascending_and_distinct (now : Z) (t : table) :
  StronglySorted (fun a b => String.compare a b = Lt) (getCategories t)
  /\ (forall c, In c (getCategories t) <-> exists r, In r t /\ Row.category r = c)
  /\ Permutation (map g_category (categoryBreakdown (getStatistics now t)))
                 (getCategories t)
  /\ categoryCount (getStatistics now t) = Z.of_nat (List.length (getCategories t)).
Proof.
  split; [|split; [apply getCategories_In|split]].
  - assert (H : StronglySorted (fun a b => (a <=? b)%string = true) (getCategories t)).
    { apply (sort_sorted String.leb); [apply String.leb_total | apply string_leb_trans]. }
    apply StronglySorted_strict in H; [|apply getCategories_NoDup].
    induction H as [|x l Hs IH Hx]; constructor; [exact IH|].
    eapply Forall_impl; [|exact Hx]. intros y [Hle Hne]. unfold String.leb in Hle.
    destruct (String.compare x y) eqn:E; [|reflexivity|discriminate Hle].
    apply String.compare_eq_iff in E. contradiction.
  - cbn [getStatistics categoryBreakdown]. now rewrite groupByCategory_categories.
  - cbn [getStatistics categoryCount]. f_equal.
    apply Permutation_length. symmetry. apply sort_permutation.
Qed.

(** ** The statistics: the breakdown against the totals *)








(** ** The export: quotes inside the description *)

(** X18.  Doubling the quotes of a description loses nothing: the result
    has each quote of the description twice and is as much longer as the
    description has quotes, and two descriptions with the same result are
    the same description. *)
Theorem doubled_quotes_keep_the_text (s : string) :
  occurrences Csv.quoteChar (Csv.doubleQuotes s) = (2 * occurrences Csv.quoteChar s)%nat
  /\ String.length (Csv.doubleQuotes s)
     = (String.length s + occurrences Csv.quoteChar s)%nat
  /\ forall s', Csv.doubleQuotes s = Csv.doubleQuotes s' -> s = s'.
Proof.
  split; [|split].
  - induction s as [|c s IH]; [reflexivity|]. cbn [Csv.doubleQuotes occurrences].
    destruct (Ascii.eqb_spec c Csv.quoteChar) as [->|Hne].
    + cbn [occurrences]. rewrite Ascii.eqb_refl, IH. lia.
    + cbn [occurrences]. apply Ascii.eqb_neq in Hne. rewrite Hne, IH. lia.
  - induction s as [|c s IH]; [reflexivity|]. cbn [Csv.doubleQuotes occurrences].
    destruct (c =? Csv.quoteChar)%char; cbn [String.length]; rewrite IH; lia.
  - induction s as [|c s IH]; intros s' H.
    + destruct s' as [|d s']; [reflexivity|]. cbn [Csv.doubleQuotes] in H.
      destruct (d =? Csv.quoteChar)%char; discriminate H.
    + destruct s' as [|d s'].
      * cbn [Csv.doubleQuotes] in H. destruct (c =? Csv.quoteChar)%char; discriminate H.
      * cbn [Csv.doubleQuotes] in H.
        destruct (Ascii.eqb_spec c Csv.quoteChar) as [->|Hc],
                 (Ascii.eqb_spec d Csv.quoteChar) as [->|Hd].
        -- injection H as H. f_equal. now apply IH.
        -- injection H as H1 H2. congruence.
        -- injection H as H1 H2. congruence.
        -- injection H as -> H. f_equal. now apply IH.
Qed.

(** ** The seeding script *)

Lemma insertProduct_cases (now : Z) (t : table) (p : Seed.product) :
  Seed.insertProduct now t p
  = if existsb (Write.hasId (Seed.id p)) t then t
    else (t ++ [Row.mk (Seed.id p) (Seed.category p) (Seed.name p)
                       (Some (Seed.description p)) (Seed.quantity p)
                       (Seed.unit_price p) (Seed.code p) now now])%list.
Proof.
  unfold Seed.insertProduct, Write.insert. cbn.
  destruct (existsb _ t); reflexivity.
Qed.

Lemma insertProduct_keeps (now : Z) (t : table) (p : Seed.product) (x : string) :
  existsb (Write.hasId x) t = true ->
  existsb (Write.hasId x) (Seed.insertProduct now t p) = true.
Proof.
  intros H. rewrite insertProduct_cases.
  destruct (existsb (Write.hasId (Seed.id p)) t); [exact H|].
  rewrite existsb_app, H. reflexivity.
Qed.

Lemma insertProduct_has (now : Z) (t : table) (p : Seed.product) :
  existsb (Write.hasId (Seed.id p)) (Seed.insertProduct now t p) = true.
Proof.
  rewrite insertProduct_cases.
  destruct (existsb (Write.hasId (Seed.id p)) t) eqn:E; [exact E|].
  rewrite existsb_app. cbn [existsb]. unfold Write.hasId at 2. cbn [Row.id].
  now rewrite String.eqb_refl, !orb_true_r.
Qed.

Lemma seedWith_keeps (now : Z) (ps : list Seed.product) (t : table) (x : string) :
  existsb (Write.hasId x) t = true -> existsb (Write.hasId x) (seedWith now ps t) = true.
Proof.
  unfold seedWith. revert t. induction ps as [|p ps IH]; intros t H; [exact H|].
  cbn [fold_left]. apply IH. now apply insertProduct_keeps.
Qed.

Lemma seedWith_has (now : Z) (ps : list Seed.product) (t : table) (p : Seed.product) :
  In p ps -> existsb (Write.hasId (Seed.id p)) (seedWith now ps t) = true.
Proof.
  revert t. induction ps as [|p' ps IH]; intros t Hin; [destruct Hin|].
  destruct Hin as [->|Hin].
  - apply (seedWith_keeps now ps). apply insertProduct_has.
  - apply IH. exact Hin.
Qed.

Lemma seedWith_nothing (now : Z) (ps : list Seed.product) (t : table) :
  (forall p, In p ps -> existsb (Write.hasId (Seed.id p)) t = true) ->
  seedWith now ps t = t.
Proof.
  unfold seedWith. induction ps as [|p ps IH]; intros H; [reflexivity|].
  cbn [fold_left]. rewrite insertProduct_cases, (H p) by (now left).
  apply IH. intros q Hq. apply H. now right.
Qed.

(** X19.  The seeding loop only adds: it leaves the rows of the table in
    place, in front of the rows it inserts, it keeps ids unique, and run a
    second time over the same products it changes nothing, each insert
    failing on its id.  In particular seeding the reference dataset twice
    gives the reference dataset. *)
Theorem seeding_only_adds (now now' : Z) (ps : list Seed.product) (t : table) :
  (exists added, seedWith now ps t = (t ++ added)%list)
  /\ (uniqueIds t -> uniqueIds (seedWith now ps t))
  /\ seedWith now' ps (seedWith now ps t) = seedWith now ps t
  /\ seedWith now' Seed.products (Seed.seeded now) = Seed.seeded now.
Proof.
  assert (Twice : forall qs u, seedWith now' qs (seedWith now qs u) = seedWith now qs u).
  { intros qs u. apply seedWith_nothing. intros p Hp. now apply seedWith_has. }
  split; [|split; [|split]].
  - unfold seedWith. revert t. induction ps as [|p ps IH]; intros t.
    + exists []. now rewrite app_nil_r.
    + cbn [fold_left]. destruct (IH (Seed.insertProduct now t p)) as [added ->].
      rewrite insertProduct_cases.
      destruct (existsb _ t); [now exists added|].
      eexists. now rewrite <- app_assoc.
  - unfold seedWith, uniqueIds. revert t. induction ps as [|p ps IH]; intros t H; [exact H|].
    cbn [fold_left]. apply IH. rewrite insertProduct_cases.
    destruct (existsb _ t) eqn:E; [exact H|].
    rewrite map_app. cbn [map Row.id].
    apply NoDup_snoc; [exact H | now apply absent_not_in].
  - apply Twice.
  - apply (Twice Seed.products []).
Qed.

(** ** The page script *)




Lemma filter_where_all {A : Type} (f : A -> bool) (l : list A) :
  (forall x, In x l -> f x = true) -> filter f l = l.
Proof.
  induction l as [|x l IH]; intros H; [reflexivity|]. cbn [filter].
  rewrite (H x) by (now left). f_equal. apply IH. intros y Hy. apply H. now right.
Qed.

Lemma filter_firstn_fixed {A : Type} (f : A -> bool) (n : nat) (l : list A) :
  filter f (firstn n (filter f l)) = firstn n (filter f l).
Proof.
  apply filter_where_all. intros x Hx. apply In_firstn in Hx.
  apply filter_In in Hx. tauto.
Qed.

(** X21.  The search history after a term is added: the term comes first,
    there are at most ten entries, every entry is the term or was in the
    history before, the term is not listed a second time, a history without
    repetitions stays without, and adding the same term again changes
    nothing. *)
Theorem search_history_after_adding (term : string) (searchHistory : list string) :
  let added := App.addToSearchHistory term searchHistory in
  hd_error added = Some term
  /\ (List.length added <= 10)%nat
  /\ (forall x, In x added -> x = term \/ In x searchHistory)
  /\ ~ In term (tl added)
  /\ (NoDup searchHistory -> NoDup added)
  /\ App.addToSearchHistory term added = added.
Proof.
  unfold App.addToSearchHistory.
  set (f := fun item => negb (item =? term)%string).
  change (firstn 10 (term :: filter f searchHistory))
    with (term :: firstn 9 (filter f searchHistory)).
  cbv zeta. split; [reflexivity|]. split; [|split; [|split; [|split]]].
  - cbn [List.length]. pose proof (firstn_le_length 9 (filter f searchHistory)). lia.
  - intros x [<-|Hx]; [now left|]. right.
    apply In_firstn, filter_In in Hx. tauto.
  - cbn [tl]. intros H. apply In_firstn, filter_In in H. destruct H as [_ H].
    unfold f in H. now rewrite String.eqb_refl in H.
  - intros Hn. constructor.
    + intros H. apply In_firstn, filter_In in H. destruct H as [_ H].
      unfold f in H. now rewrite String.eqb_refl in H.
    + assert (G : forall n (l : list string), NoDup l -> NoDup (firstn n l)).
      { induction n as [|n IH]; intros l Hl; [constructor|].
        destruct l as [|x l]; [constructor|]. cbn [firstn].
        inversion Hl as [|? ? Hx Hl']; subst. constructor; [|now apply IH].
        intros H. apply Hx. now apply (In_firstn n). }
      apply G. now apply NoDup_filter.
  - cbn [filter]. unfold f at 1. rewrite String.eqb_refl. cbn [negb].
    rewrite filter_firstn_fixed.
    change (firstn 10 (term :: firstn 9 (filter f searchHistory)))
      with (term :: firstn 9 (firstn 9 (filter f searchHistory))).
    now rewrite firstn_firstn.
Qed.

(** ** Paging through a filtered listing *)




(** ** POST: what can go wrong after validation *)

(** X23.  Once a body has passed [validateProduct] and the handler's own
    test for missing fields, the insert fails on nothing but a taken id:
    the answer is 500 "Failed to create product", with the table as it was,
    exactly when a row already has the (trimmed) id, and 201 otherwise. *)
Theorem post_fails_only_on_a_taken_id (now : Z) (body : Body.t) (t : table) :
  Validator.validateProduct body = [] ->
  incomplete (Validator.sanitize body) = false ->
  ((exists r, In r t /\ Row.id r = trim (Validator.toString (Body.id body)))
   /\ createProduct now body t = (Status 500 "Failed to create product", t))
  \/ ((forall r, In r t -> Row.id r <> trim (Validator.toString (Body.id body)))
      /\ exists t', createProduct now body t = (Status 201 "Product created successfully", t')).
Proof.
  intros Hv Hi.
  destruct (createProduct_valid now body t Hv) as (q & p & _ & _ & ->).
  rewrite Hi. cbn [target].
  destruct (existsb _ t) eqn:E.
  - left. split; [|reflexivity].
    apply existsb_exists in E. destruct E as (r & Hin & Hr).
    exists r. split; [exact Hin | now apply hasId_true].
  - right. split; [now apply absent_existsb | eauto].
Qed.

Lemma post_fails_only_on_a_taken_id_witness :
  let body := Body.mk (Some "000-01") (Some "test") (Some "New Test Product")
                      (Some "Test Description") (Body.Num (50 # 1)) (Body.Num (25 # 1))
                      (Some "000-99") in
  createProduct 7 body (Seed.seeded 0)
  = (Status 500 "Failed to create product", Seed.seeded 0).
Proof.
  intros body.
  destruct (post_fails_only_on_a_taken_id 7 body (Seed.seeded 0) eq_refl eq_refl)
    as [[_ H]|[H _]]; [exact H|].
  exfalso. apply (H (Row.mk "000-01" "clothing" "bohoo clothes"
    (Some "It's time to be the MAN! Discover boohooMAN's logo collection and fill up your wardrobe with these exclusive MAN branded items. Discover the MAN logo hoodies, the t-shirts, the tracksuits, the accessories (and much, much more) and add some attitude to your casual outfit.")
    300 (30 # 1) "000-01" 0 0)); [now left | reflexivity].
Defined.

(** ** Requests that fail *)

(** X24.  A write that is not answered with its success message has no
    effect: unless POST answers 201 "Product created successfully", PUT 200
    "Product updated successfully" or DELETE 200 "Product deleted
    successfully", the table is exactly as it was before the request. *)
Theorem failed_writes_change_nothing (now : Z) (w : write) (t : table) :
  snd (handle now w t) = t
  \/ fst (handle now w t) = Status 201 "Product created successfully"
  \/ fst (handle now w t) = Status 200 "Product updated successfully"
  \/ fst (handle now w t) = Status 200 "Product deleted successfully".
Proof.
  destruct w as [body|id body|id]; cbn [handle].
  - destruct (createProduct_table now body t) as [H|(q & p & _ & _ & _ & _ & H)];
      [now left|].
    right; left. now rewrite H.
  - destruct (updateProduct_table now id body t) as [H|(q & p & _ & _ & _ & H)];
      [now left|].
    right; right; left. now rewrite H.
  - unfold deleteProduct.
    destruct (handleValidationErrors (Validator.validateId id)); [now left|].
    unfold delete_by_id.
    destruct (Z.eqb_spec (Z.of_nat (List.length (filter (Write.hasId id) t))) 0) as [E|E].
    + left. cbn [snd]. apply filter_others.
      destruct (existsb (Write.hasId id) t) eqn:X; [|reflexivity].
      apply existsb_filter_length in X. contradiction.
    + right; right; right. reflexivity.
Qed.
